(** * ctapipe.core.traits: per-telescope parameters and path traits

    A shallow embedding of [ctapipe/core/traits.py]: the classes
    [TelescopePatternList], [TelescopeParameterLookup], [TelescopeParameter]
    and [Path], followed by the properties of the configuration layer that
    are stated about them. *)

From stdpp Require Import gmap strings list.
From Stdlib Require Import QArith Ascii.

Set Warnings "-register-all".
Local Open Scope string_scope.
Local Open Scope Z_scope.

(** ** Python objects *)

(** The objects that reach the traits: configuration values, pattern
    tuples and lookup keys.  A finite [float] is the rational it denotes. *)
Inductive pyobj :=
| PNone
| PBool (b : bool)
| PInt (z : Z)
| PFloat (q : Q)
| PStr (s : string)
| PTuple (items : list pyobj)
| PList (items : list pyobj).

(** ** Exceptions *)

(** Each raise site of the module has a tag of its own, so that two
    exceptions of the same Python class are told apart by their cause. *)
Inductive trait_failure :=
| InvalidValue            (* self.error(obj, value) *)
| PatternArity            (* pattern should be a tuple of (command, argument, value) *)
| CommandNotString        (* command must be a string *)
| CommandUnknown          (* command must be one of: 'type', 'id' *)
| TypeArgumentNotString   (* 'type' argument should be a string *)
| IdArgumentNotInt        (* Argument of 'id' should be an int *)
| PathDoesNotExist        (* Path "..." does not exist *)
| PathMustNotExist        (* Path "..." must not exist *)
| PathIsDirectory         (* Path "..." must not be a directory *)
| PathIsFile.             (* Path "..." must not be a file *)

Inductive value_failure :=
| NoSubarrayAttached              (* call `attach_subarray` first *)
| UnknownTelescopeType (t : string)
| UnrecognizedCommand
| InvalidLiteral                  (* int() of a string that is no integer *)
| TooManyValues.                  (* unpacking a sequence of the wrong length *)

Inductive key_failure :=
| NoGlobalValue                   (* No subarray global value set *)
| NoValueForTelId (tel_id : Z)
| NoValueForType (t : string).

Inductive exn :=
| TraitError (why : trait_failure)
| ValueError (why : value_failure)
| KeyError (why : key_failure)
| TypeError
| AttributeError
| RuntimeError
| RecursionError
| OtherError (name : string).

(** The four lookup errors, under the names the design documents use. *)
Definition NotBound : exn := ValueError NoSubarrayAttached.
Definition NoDefault : exn := KeyError NoGlobalValue.
Definition UnknownType (t : string) : exn := ValueError (UnknownTelescopeType t).
Definition UnresolvedId (tel_id : Z) : exn := KeyError (NoValueForTelId tel_id).
Definition UnresolvedType (t : string) : exn := KeyError (NoValueForType t).

(** A call either returns or raises. *)
Inductive result (A : Type) :=
| Ok (a : A)
| Raise (e : exn).
Arguments Ok {A} a.
Arguments Raise {A} e.

Definition bind {A B : Type} (r : result A) (k : A -> result B) : result B :=
  match r with
  | Ok a => k a
  | Raise e => Raise e
  end.

Notation "x <- r ;; k" := (bind r (fun x => k))
  (at level 100, r at next level, right associativity).

(** ** Builtins and library functions the module calls *)

(** [fnmatch.fnmatch name pat], the parsing of a string by [int] and
    [copy.deepcopy] belong to the Python library; the development is
    parametric in them.  [deepcopy_depth] is the number of lookups, nested
    one in the other, that [copy.deepcopy] goes through before the
    interpreter's recursion limit stops it with RecursionError. *)
Class Builtins := {
  fnmatch : string -> string -> bool;
  int_of_str : string -> option Z;
  deepcopy_depth : nat;
}.

(** [int(x)]: an [int] or [bool] is its value, a [float] is truncated
    towards zero, a string is parsed (ValueError when it is no integer
    literal); every other object is a TypeError. *)
Definition py_int `{Builtins} (x : pyobj) : result Z :=
  match x with
  | PInt z => Ok z
  | PBool b => Ok (Z.b2z b)
  | PFloat q => Ok (Z.quot (Qnum q) (Z.pos (Qden q)))
  | PStr s =>
      match int_of_str s with
      | Some z => Ok z
      | None => Raise (ValueError InvalidLiteral)
      end
  | PNone | PTuple _ | PList _ => Raise TypeError
  end.

(** [len(x)] *)
Definition py_len (x : pyobj) : result nat :=
  match x with
  | PStr s => Ok (String.length s)
  | PTuple l | PList l => Ok (length l)
  | PNone | PBool _ | PInt _ | PFloat _ => Raise TypeError
  end.

(** Iterating over a string yields its one-character strings. *)
Fixpoint chars (s : string) : list pyobj :=
  match s with
  | EmptyString => []
  | String a rest => PStr (String a EmptyString) :: chars rest
  end.

(** [a, b, c = x] *)
Definition py_unpack3 (x : pyobj) : result (pyobj * pyobj * pyobj) :=
  match x with
  | PTuple l | PList l =>
      match l with
      | [a; b; c] => Ok (a, b, c)
      | _ => Raise (ValueError TooManyValues)
      end
  | PStr s =>
      match chars s with
      | [a; b; c] => Ok (a, b, c)
      | _ => Raise (ValueError TooManyValues)
      end
  | PNone | PBool _ | PInt _ | PFloat _ => Raise TypeError
  end.

(** [x == s] for a string literal [s] *)
Definition py_eq_str (x : pyobj) (s : string) : bool :=
  match x with
  | PStr s' => bool_decide (s' = s)
  | _ => false
  end.

(** [hash(x)] succeeds: lists are unhashable, and so is a tuple that
    holds one. *)
Fixpoint hashable (x : pyobj) : bool :=
  match x with
  | PList _ => false
  | PTuple l => forallb hashable l
  | _ => true
  end.

(** ** The subarray *)

(** Modelled from the spec: the entity catalog, which the sources only
    use ([ctapipe.instrument.SubarrayDescription] is defined elsewhere).
    [telescope_types] lists [str(t)] for the telescope types in iteration
    order; [get_tel_ids_for_type] gives the telescope ids of a type. *)
Record SubarrayDescription := {
  telescope_types : list string;
  get_tel_ids_for_type : string -> list Z;
}.

(** ** Pattern tuples *)

(** One [(command, argument, value)] entry of a parameter list. *)
Record pattern := Pattern {
  command : pyobj;
  arg : pyobj;
  value : pyobj;
}.

Definition pattern_to_obj (p : pattern) : pyobj :=
  PTuple [command p; arg p; value p].

(** ** class TelescopeParameterLookup *)

Module TelescopeParameterLookup.

(** The attributes of an instance.  [None] stands for Python's [None]
    in the four attributes that [attach_subarray] fills, and for
    [Undefined] in [_subarray_global_value]. *)
Record t := {
  _telescope_parameter_list : list pattern;
  _value_for_tel_id : option (gmap Z pyobj);
  _value_for_type : option (gmap string pyobj);
  _subarray : option SubarrayDescription;
  _subarray_global_value : option pyobj;
  _type_strs : option (gset string);
}.

(** The loop of [__init__]:
    [for param in telescope_parameter_list:
       if param[1] == "*": self._subarray_global_value = param[2]] *)
Definition init_global_value (params : list pattern) : option pyobj :=
  fold_left
    (fun global param =>
       if py_eq_str (arg param) "*" then Some (value param) else global)
    params None.

Definition __init__ (telescope_parameter_list : list pattern) : t :=
  {| _telescope_parameter_list := telescope_parameter_list;
     _value_for_tel_id := None;
     _value_for_type := None;
     _subarray := None;
     _subarray_global_value := init_global_value telescope_parameter_list;
     _type_strs := None |}.

Section attach.
Context `{Builtins}.

(** [[str(t) for t in subarray.telescope_types if fnmatch(str(t), arg)]];
    [fnmatch] is applied to [arg] only when there is a type to test, and
    raises TypeError when [arg] is no string. *)
Definition matched_tel_types (subarray : SubarrayDescription) (arg : pyobj)
  : result (list string) :=
  match telescope_types subarray with
  | [] => Ok []
  | types =>
      match arg with
      | PStr pat => Ok (List.filter (fun t => fnmatch t pat) types)
      | _ => Raise TypeError
      end
  end.

(** The body of [for tel_type in matched_tel_types]. *)
Definition set_for_type (subarray : SubarrayDescription) (value : pyobj)
    (maps : gmap Z pyobj * gmap string pyobj) (tel_type : string)
  : gmap Z pyobj * gmap string pyobj :=
  (fold_left (fun for_id tel_id => <[tel_id := value]> for_id)
     (get_tel_ids_for_type subarray tel_type) maps.1,
   <[tel_type := value]> maps.2).

(** One iteration of [for command, arg, value in
    self._telescope_parameter_list]: the new maps, or the exception the
    iteration raises before it has written anything. *)
Definition attach_pattern (subarray : SubarrayDescription)
    (maps : gmap Z pyobj * gmap string pyobj) (p : pattern)
  : result (gmap Z pyobj * gmap string pyobj) :=
  if py_eq_str (command p) "type" then
    matched <- matched_tel_types subarray (arg p);;
    Ok (fold_left (set_for_type subarray (value p)) matched maps)
  else if py_eq_str (command p) "id" then
    tel_id <- py_int (arg p);;
    Ok (<[tel_id := value p]> maps.1, maps.2)
  else Raise (ValueError UnrecognizedCommand).

(** The loop: it stops at the first iteration that raises, and the
    maps keep what the earlier iterations wrote. *)
Fixpoint attach_loop (subarray : SubarrayDescription) (params : list pattern)
    (maps : gmap Z pyobj * gmap string pyobj)
  : (gmap Z pyobj * gmap string pyobj) * option exn :=
  match params with
  | [] => (maps, None)
  | p :: rest =>
      match attach_pattern subarray maps p with
      | Ok maps' => attach_loop subarray rest maps'
      | Raise e => (maps, Some e)
      end
  end.

(** [attach_subarray(self, subarray)]: the instance after the call, and
    the exception when the call raised. *)
Definition attach_subarray (self : t) (subarray : SubarrayDescription)
  : t * option exn :=
  let out := attach_loop subarray (_telescope_parameter_list self) (∅, ∅) in
  ({| _telescope_parameter_list := _telescope_parameter_list self;
      _value_for_tel_id := Some out.1.1;
      _value_for_type := Some out.1.2;
      _subarray := Some subarray;
      _subarray_global_value := _subarray_global_value self;
      _type_strs := Some (list_to_set (telescope_types subarray)) |},
   out.2).
End attach.

(** [self._value_for_tel_id[tel]] with the KeyError rewritten *)
Definition value_for_tel_id (self : t) (tel : Z) : result pyobj :=
  match _value_for_tel_id self with
  | None => Raise TypeError
  | Some for_id =>
      match for_id !! tel with
      | Some v => Ok v
      | None => Raise (KeyError (NoValueForTelId tel))
      end
  end.

(** The branch [if isinstance(tel, str)] *)
Definition value_for_type (self : t) (tel : string) : result pyobj :=
  match _type_strs self with
  | None => Raise TypeError
  | Some type_strs =>
      if bool_decide (tel ∈ type_strs) then
        match _value_for_type self with
        | None => Raise TypeError
        | Some for_type =>
            match for_type !! tel with
            | Some v => Ok v
            | None => Raise (KeyError (NoValueForType tel))
            end
        end
      else Raise (ValueError (UnknownTelescopeType tel))
  end.

(** [__getitem__(self, tel)]; a [bool] is an [int] for [isinstance]. *)
Definition __getitem__ (self : t) (tel : pyobj) : result pyobj :=
  match tel with
  | PNone =>
      match _subarray_global_value self with
      | Some v => Ok v
      | None => Raise (KeyError NoGlobalValue)
      end
  | _ =>
      match _value_for_tel_id self with
      | None => Raise (ValueError NoSubarrayAttached)
      | Some _ =>
          match tel with
          | PInt z => value_for_tel_id self z
          | PBool b => value_for_tel_id self (Z.b2z b)
          | PStr s => value_for_type self s
          | _ => Raise TypeError
          end
      end
  end.

End TelescopeParameterLookup.

(** ** class TelescopePatternList *)

Module TelescopePatternList.

(** The list itself ([data], as in [UserList]) and the two attributes
    that [__init__] adds. *)
Record t := {
  data : list pattern;
  _lookup : option TelescopeParameterLookup.t;
  _subarray : option SubarrayDescription;
}.

(** [single_to_pattern(value)]: a 3-tuple that starts with ["type"] or
    ["id"] is kept, everything else becomes [["type", "*", value]].  The
    membership test hashes [value[0]]. *)
Definition single_to_pattern (value : pyobj) : result pattern :=
  match value with
  | PTuple [c; a; v] =>
      if hashable c then
        if py_eq_str c "type" || py_eq_str c "id"
        then Ok (Pattern c a v)
        else Ok (Pattern (PStr "type") (PStr "*") value)
      else Raise TypeError
  | _ => Ok (Pattern (PStr "type") (PStr "*") value)
  end.

(** [for i in range(len(self)): self[i] = self.single_to_pattern(self[i])] *)
Fixpoint to_patterns (items : list pyobj) : result (list pattern) :=
  match items with
  | [] => Ok []
  | x :: rest =>
      p <- single_to_pattern x;;
      ps <- to_patterns rest;;
      Ok (p :: ps)
  end.

Definition __init__ (items : list pyobj) : result t :=
  ps <- to_patterns items;;
  Ok {| data := ps; _lookup := None; _subarray := None |}.

(** [TelescopePatternList()] *)
Definition new : t := {| data := []; _lookup := None; _subarray := None |}.

Definition append (self : t) (value : pyobj) : result t :=
  p <- single_to_pattern value;;
  Ok {| data := data self ++ [p];
        _lookup := _lookup self;
        _subarray := _subarray self |}.

(** The property [tel] *)
Definition tel (self : t) : result TelescopeParameterLookup.t :=
  match _lookup self with
  | Some lookup => Ok lookup
  | None => Raise RuntimeError
  end.

(** [attach_subarray(self, subarray)]: [self._subarray] is assigned
    first; [self._lookup.attach_subarray] is an AttributeError while
    [_lookup] is [None]. *)
Definition attach_subarray `{Builtins} (self : t) (subarray : SubarrayDescription)
  : t * option exn :=
  match _lookup self with
  | None =>
      ({| data := data self; _lookup := None; _subarray := Some subarray |},
       Some AttributeError)
  | Some lookup =>
      let out := TelescopeParameterLookup.attach_subarray lookup subarray in
      ({| data := data self; _lookup := Some out.1; _subarray := Some subarray |},
       out.2)
  end.

End TelescopePatternList.

(** ** class TelescopeParameter *)

(** What is assigned to a [TelescopeParameter]: a plain object (a Python
    list when it is a [PList]) or an existing [TelescopePatternList]. *)
Inductive assigned :=
| Plain (v : pyobj)
| Patterns (l : TelescopePatternList.t).

Module TelescopeParameter.

(** The inner trait is its [validate] method; [default_value] is the
    validated default, [None] when it is [Undefined]. *)
Record t := {
  _trait : pyobj -> result pyobj;
  allow_none : bool;
  default_value : option TelescopePatternList.t;
}.

Definition _validate_entry (self : t) (value : pyobj) : result pyobj :=
  match value with
  | PNone => if allow_none self then Ok PNone else _trait self PNone
  | _ => _trait self value
  end.

(** [isinstance(value, (list, List, UserList, TelescopePatternList))] *)
Definition is_list (value : assigned) : bool :=
  match value with
  | Plain (PList _) | Patterns _ => true
  | Plain _ => false
  end.

(** What [for pattern in value] iterates over. *)
Definition entries (value : assigned) : list pyobj :=
  match value with
  | Plain (PList items) => items
  | Plain _ => []
  | Patterns l => map pattern_to_obj (TelescopePatternList.data l)
  end.

(** [value._subarray] when [value] is a [TelescopePatternList] *)
Definition subarray_of (value : assigned) : option SubarrayDescription :=
  match value with
  | Patterns l => TelescopePatternList._subarray l
  | Plain _ => None
  end.

(** The first lines of [validate] and of [set]: a single value becomes
    [[("type", "*", self._validate_entry(obj, value))]]. *)
Definition as_list (self : t) (value : assigned) : result assigned :=
  match value with
  | Plain v =>
      if is_list value then Ok value
      else
        v' <- _validate_entry self v;;
        Ok (Plain (PList [PTuple [PStr "type"; PStr "*"; v']]))
  | Patterns _ => Ok value
  end.

Section validate.
Context `{Builtins}.

(** [try: arg = int(arg) except ValueError: raise TraitError(...)] *)
Definition id_argument (arg : pyobj) : result pyobj :=
  match py_int arg with
  | Ok z => Ok (PInt z)
  | Raise (ValueError _) => Raise (TraitError IdArgumentNotInt)
  | Raise e => Raise e
  end.

(** The checks of one [pattern] in the loop of [validate], up to the
    tuple that is appended. *)
Definition validate_pattern (self : t) (pattern : pyobj) : result pyobj :=
  n <- py_len pattern;;
  if negb (n =? 3)%nat then Raise (TraitError PatternArity)
  else
    cav <- py_unpack3 pattern;;
    let command := cav.1.1 in
    let arg := cav.1.2 in
    val <- _validate_entry self cav.2;;
    match command with
    | PStr c =>
        if negb (bool_decide (c ∈ ["type"; "id"]))
        then Raise (TraitError CommandUnknown)
        else
          arg <- (if bool_decide (c = "type")
                  then match arg with
                       | PStr _ => Ok arg
                       | _ => Raise (TraitError TypeArgumentNotString)
                       end
                  else Ok arg);;
          arg <- (if bool_decide (c = "id") then id_argument arg else Ok arg);;
          val <- _validate_entry self val;;
          Ok (PTuple [command; arg; val])
    | _ => Raise (TraitError CommandNotString)
    end.

(** One iteration of the loop: append, build the lookup of the list
    so far, and attach the subarray that [value] carries.
    [TelescopeParameterLookup(normalized_value)] deep-copies the list with
    its attributes, and so with the lookup of the iteration before, which
    holds the copy made then: the list copied after the rule number [n + 1]
    has [n] lookups nested in it, and the copy raises RecursionError when
    these are more than [deepcopy_depth]. *)
Definition validate_step (self : t) (carried : option SubarrayDescription)
    (normalized_value : TelescopePatternList.t) (pattern : pyobj)
  : result TelescopePatternList.t :=
  entry <- validate_pattern self pattern;;
  appended <- TelescopePatternList.append normalized_value entry;;
  _ <- (if (deepcopy_depth
            <? length (TelescopePatternList.data normalized_value))%nat
        then Raise RecursionError else Ok tt);;
  let with_lookup :=
    {| TelescopePatternList.data := TelescopePatternList.data appended;
       TelescopePatternList._lookup :=
         Some (TelescopeParameterLookup.__init__
                 (TelescopePatternList.data appended));
       TelescopePatternList._subarray :=
         TelescopePatternList._subarray appended |} in
  match carried with
  | Some subarray =>
      match TelescopePatternList.attach_subarray with_lookup subarray with
      | (attached, None) => Ok attached
      | (_, Some e) => Raise e
      end
  | None => Ok with_lookup
  end.

Fixpoint validate_loop (self : t) (carried : option SubarrayDescription)
    (normalized_value : TelescopePatternList.t) (patterns : list pyobj)
  : result TelescopePatternList.t :=
  match patterns with
  | [] => Ok normalized_value
  | pattern :: rest =>
      next <- validate_step self carried normalized_value pattern;;
      validate_loop self carried next rest
  end.

(** [validate(self, obj, value)] *)
Definition validate (self : t) (value : assigned)
  : result TelescopePatternList.t :=
  value <- as_list self value;;
  validate_loop self (subarray_of value) TelescopePatternList.new
    (entries value).

(** [set(self, obj, value)] on the slot [obj._trait_values[self.name]]
    ([None] while the slot is empty): the slot after the call and the
    exception when the call raised.  [super().set] validates and stores;
    it is traitlets' and runs no cross-validator here. *)
Definition set (self : t) (slot : option TelescopePatternList.t)
    (value : assigned)
  : option TelescopePatternList.t * option exn :=
  match as_list self value with
  | Raise e => (slot, Some e)
  | Ok value =>
      let old_value :=
        match slot with
        | Some old => Some old
        | None => default_value self
        end in
      match validate self value with
      | Raise e => (slot, Some e)
      | Ok new_value =>
          match old_value ≫= TelescopePatternList._subarray with
          | Some subarray =>
              let out :=
                TelescopePatternList.attach_subarray new_value subarray in
              (Some out.1, out.2)
          | None => (Some new_value, None)
          end
      end
  end.
End validate.

End TelescopeParameter.

(** ** class Path *)

Module Path.

(** The fields of [urllib.parse.urlparse(value)] that [validate] reads. *)
Record ParseResult := {
  scheme : string;
  netloc : string;
  path : string;
}.

(** The operating system, the Python library and the two helpers of
    [ctapipe.utils] that [validate] calls.  A [pathlib.Path] is the
    string it prints as.  [urlparse] is [None] when it raises
    ValueError. *)
Class System := {
  fsdecode : string -> string;
  expandvars : string -> string;
  urlparse : string -> option ParseResult;
  download_cached : string -> result string;
  get_dataset_path : string -> result string;
  join_path : string -> string -> string;
  absolute : string -> string;
  path_exists : string -> bool;
  is_dir : string -> bool;
  is_file : string -> bool;
}.

(** The value handed to [validate] and the value it returns. *)
Inductive path_value :=
| VNone
| VUndefined
| VBytes (b : string)
| VStr (s : string)
| VPath (p : string)
| VOther (o : pyobj).

(** The attributes set by [__init__]; [must_exist] is [self.exists]. *)
Record t := {
  must_exist : option bool;
  directory_ok : bool;
  file_ok : bool;
  allow_none : bool;
}.

Fixpoint strip_prefix (pre s : string) : option string :=
  match pre, s with
  | EmptyString, _ => Some s
  | String a pre', String b s' =>
      if bool_decide (a = b) then strip_prefix pre' s' else None
  | String _ _, EmptyString => None
  end.

(** [s.partition(sep)[2]]: what follows the first occurrence of [sep],
    the empty string when there is none. *)
Fixpoint partition_tail (sep s : string) : string :=
  match strip_prefix sep s with
  | Some rest => rest
  | None =>
      match s with
      | EmptyString => EmptyString
      | String _ s' => partition_tail sep s'
      end
  end.

Section validate.
Context `{System}.

(** Lines 187 to 202: the checks on the resolved path. *)
Definition check_constraints (self : t) (resolved : string)
  : result path_value :=
  let value := absolute resolved in
  let exists_ := path_exists value in
  _ <- match must_exist self with
       | Some wanted =>
           if negb (Bool.eqb exists_ wanted)
           then Raise (TraitError
                         (if wanted then PathDoesNotExist
                          else PathMustNotExist))
           else Ok tt
       | None => Ok tt
       end;;
  _ <- (if exists_ then
          _ <- (if negb (directory_ok self) && is_dir value
                then Raise (TraitError PathIsDirectory) else Ok tt);;
          if negb (file_ok self) && is_file value
          then Raise (TraitError PathIsFile) else Ok tt
        else Ok tt);;
  Ok (VPath value).

(** The dispatch on [url.scheme]. *)
Definition resolve (value : string) (url : ParseResult) : result string :=
  if bool_decide (scheme url ∈ ["http"; "https"])
  then download_cached value
  else if bool_decide (scheme url = "dataset")
  then get_dataset_path (partition_tail "dataset://" value)
  else if bool_decide (scheme url ∈ [""; "file"])
  then Ok (join_path (netloc url) (path url))
  else Raise (TraitError InvalidValue).

(** What follows [value = os.path.expandvars(value)]. *)
Definition validate_str (self : t) (value : string) : result path_value :=
  if bool_decide (value = "") then Raise (TraitError InvalidValue)
  else
    match urlparse value with
    | None => Raise (TraitError InvalidValue)
    | Some url =>
        resolved <- resolve value url;;
        check_constraints self resolved
    end.

(** [validate(self, obj, value)] *)
Definition validate (self : t) (value : path_value) : result path_value :=
  let value :=
    match value with
    | VBytes b => VStr (fsdecode b)
    | _ => value
    end in
  match value with
  | VNone | VUndefined =>
      if allow_none self then Ok value else Raise (TraitError InvalidValue)
  | VStr s | VPath s => validate_str self (expandvars s)
  | VBytes _ | VOther _ => Raise (TraitError InvalidValue)
  end.
End validate.

End Path.

(** ** class ComponentName *)

Module ComponentName.

(** The attribute [allow_none]; [self.cls] is only asked for
    [non_abstract_subclasses()], whose names are an argument of [validate]
    ([ctapipe.core.component] is defined elsewhere). *)
Record t := {
  allow_none : bool;
}.

(** [validate(self, obj, value)] for a value that is [None] or a name,
    against the names registered at the time of the call. *)
Definition validate (self : t) (non_abstract_subclasses : list string)
    (value : option string) : result (option string) :=
  match value with
  | None =>
      if allow_none self then Ok None else Raise (TraitError InvalidValue)
  | Some name =>
      if bool_decide (name ∈ non_abstract_subclasses) then Ok value
      else Raise (TraitError InvalidValue)
  end.

End ComponentName.

(** ** Instances for closed examples *)

(** Shell-style matching for patterns made of literal characters, [?]
    and [*]; on such patterns this is what [fnmatch] computes. *)
Fixpoint glob (pat name : string) : bool :=
  match pat with
  | EmptyString => bool_decide (name = EmptyString)
  | String c pat' =>
      if bool_decide (c = "*"%char) then
        (fix star (n : string) : bool :=
           glob pat' n
           || match n with
              | EmptyString => false
              | String _ n' => star n'
              end) name
      else
        match name with
        | EmptyString => false
        | String d name' =>
            (bool_decide (c = "?"%char) || bool_decide (c = d)) && glob pat' name'
        end
  end.

Definition digit (a : ascii) : option Z :=
  let n := Z.of_nat (nat_of_ascii a) in
  if bool_decide (48 <= n <= 57) then Some (n - 48) else None.

Fixpoint digits (s : string) (acc : Z) : option Z :=
  match s with
  | EmptyString => Some acc
  | String a rest =>
      match digit a with
      | Some d => digits rest (10 * acc + d)
      | None => None
      end
  end.

(** Plain decimal literals with an optional sign. *)
Definition decimal (s : string) : option Z :=
  match s with
  | EmptyString => None
  | String a rest =>
      if bool_decide (a = "-"%char) then
        if bool_decide (rest = EmptyString) then None
        else Z.opp <$> digits rest 0
      else if bool_decide (a = "+"%char) then
        if bool_decide (rest = EmptyString) then None
        else digits rest 0
      else digits s 0
  end.

(** The depth is that of an interpreter at its default recursion limit,
    where a list of 124 rules validates and one of 125 does not. *)
Definition python : Builtins := {| fnmatch := fun name pat => glob pat name;
                                   int_of_str := decimal;
                                   deepcopy_depth := 123 |}.

(** A stand-in for [traitlets.Float().validate]: a float is kept, an
    [int] (or [bool]) is converted, anything else is rejected. *)
Definition Float_validate (value : pyobj) : result pyobj :=
  match value with
  | PFloat q => Ok (PFloat q)
  | PInt z => Ok (PFloat (inject_Z z))
  | PBool b => Ok (PFloat (inject_Z (Z.b2z b)))
  | _ => Raise (TraitError InvalidValue)
  end.

(** [FloatTelescopeParameter()] *)
Definition FloatTelescopeParameter : TelescopeParameter.t :=
  {| TelescopeParameter._trait := Float_validate;
     TelescopeParameter.allow_none := false;
     TelescopeParameter.default_value := None |}.

(** A subarray of four telescopes of one type and two of another. *)
Definition example_subarray : SubarrayDescription :=
  {| telescope_types := ["LST_LST_LSTCam"; "MST_MST_FlashCam"];
     get_tel_ids_for_type := fun t =>
       if bool_decide (t = "LST_LST_LSTCam") then [1; 2; 3; 4]
       else if bool_decide (t = "MST_MST_FlashCam") then [5; 6]
       else [] |}.

(** A second subarray, with other types and ids. *)
Definition other_subarray : SubarrayDescription :=
  {| telescope_types := ["SST_ASTRI_CHEC"];
     get_tel_ids_for_type := fun t =>
       if bool_decide (t = "SST_ASTRI_CHEC") then [30; 31] else [] |}.

(** A small file system: the directory [/data] with the file
    [/data/gamma.simtel.gz], the working directory [/work], no environment
    variables, and a [urlparse] that knows the scheme separator. *)
Definition example_urlparse (s : string) : option Path.ParseResult :=
  let try_scheme (name : string) :=
    match Path.strip_prefix (name ++ "://") s with
    | Some rest =>
        Some {| Path.scheme := name; Path.netloc := ""; Path.path := rest |}
    | None => None
    end in
  match try_scheme "dataset", try_scheme "file", try_scheme "ftp" with
  | Some u, _, _ | None, Some u, _ | None, None, Some u => Some u
  | None, None, None =>
      Some {| Path.scheme := ""; Path.netloc := ""; Path.path := s |}
  end.

Definition example_system : Path.System :=
  {| Path.fsdecode := fun b => b;
     Path.expandvars := fun s => s;
     Path.urlparse := example_urlparse;
     Path.download_cached := fun url => Raise (OtherError "offline");
     Path.get_dataset_path := fun name => Ok ("/data/" ++ name);
     Path.join_path := fun a b => a ++ b;
     Path.absolute := fun p =>
       match Path.strip_prefix "/" p with
       | Some _ => p
       | None => "/work/" ++ p
       end;
     Path.path_exists := fun p =>
       bool_decide (p ∈ ["/data"; "/data/gamma.simtel.gz"; "/work"]);
     Path.is_dir := fun p => bool_decide (p ∈ ["/data"; "/work"]);
     Path.is_file := fun p => bool_decide (p = "/data/gamma.simtel.gz") |}.

(** The same file system with a [urlparse] that takes what precedes the
    first colon as the scheme, as for [dataset:gamma.simtel.gz]. *)
Fixpoint split_colon (s : string) : option (string * string) :=
  match s with
  | EmptyString => None
  | String a rest =>
      if bool_decide (a = ":"%char) then Some (EmptyString, rest)
      else
        match split_colon rest with
        | Some (scheme, path) => Some (String a scheme, path)
        | None => None
        end
  end.

Definition colon_system : Path.System :=
  {| Path.fsdecode := fun b => b;
     Path.expandvars := fun s => s;
     Path.urlparse := fun s =>
       match split_colon s with
       | Some (scheme, path) =>
           Some {| Path.scheme := scheme; Path.netloc := ""; Path.path := path |}
       | None =>
           Some {| Path.scheme := ""; Path.netloc := ""; Path.path := s |}
       end;
     Path.download_cached := fun url => Raise (OtherError "offline");
     Path.get_dataset_path := fun name =>
       if bool_decide (name = "") then Raise (OtherError "FileNotFoundError")
       else Ok ("/data/" ++ name);
     Path.join_path := fun a b => a ++ b;
     Path.absolute := fun p =>
       match Path.strip_prefix "/" p with
       | Some _ => p
       | None => "/work/" ++ p
       end;
     Path.path_exists := fun p =>
       bool_decide (p ∈ ["/data"; "/data/gamma.simtel.gz"; "/work"]);
     Path.is_dir := fun p => bool_decide (p ∈ ["/data"; "/work"]);
     Path.is_file := fun p => bool_decide (p = "/data/gamma.simtel.gz") |}.

(** [Path(exists=True, directory_ok=False)] *)
Definition existing_file : Path.t :=
  {| Path.must_exist := Some true;
     Path.directory_ok := false;
     Path.file_ok := true;
     Path.allow_none := false |}.

(** ** Notions used in the statements *)

(** The rules whose argument is the string ["*"], in list order. *)
Definition star_rules (params : list pattern) : list pattern :=
  List.filter (fun p => py_eq_str (arg p) "*") params.

(** The rules of the form [("type", "*", _)], in list order. *)
Definition type_star_rules (params : list pattern) : list pattern :=
  List.filter (fun p => py_eq_str (command p) "type" && py_eq_str (arg p) "*")
    params.

(** A rule as the design documents describe it: a ["type"] rule with a
    string argument or an ["id"] rule with an integer argument. *)
Definition well_formed (p : pattern) : bool :=
  match command p, arg p with
  | PStr c, PStr _ => bool_decide (c = "type")
  | PStr c, PInt _ => bool_decide (c = "id")
  | _, _ => false
  end.

(** Successive calls of [attach_subarray] on one lookup; a caller that
    goes on after a call has raised still holds the same instance. *)
Definition attach_all `{Builtins} (lookup : TelescopeParameterLookup.t)
    (subarrays : list SubarrayDescription) : TelescopeParameterLookup.t :=
  fold_left (fun lk subarray => (TelescopeParameterLookup.attach_subarray lk subarray).1)
    subarrays lookup.

(** The types a rule writes to when it is replayed against a subarray. *)
Definition touched_types `{Builtins} (subarray : SubarrayDescription) (p : pattern)
  : list string :=
  if py_eq_str (command p) "type" then
    match TelescopeParameterLookup.matched_tel_types subarray (arg p) with
    | Ok matched => matched
    | Raise _ => []
    end
  else [].

(** The telescope ids a rule writes to. *)
Definition touches_id `{Builtins} (subarray : SubarrayDescription) (p : pattern)
    (tel_id : Z) : Prop :=
  (exists t, In t (touched_types subarray p)
             /\ In tel_id (get_tel_ids_for_type subarray t))
  \/ (py_eq_str (command p) "type" = false
      /\ py_eq_str (command p) "id" = true
      /\ py_int (arg p) = Ok tel_id).

(** What [validate] maintains on the list it builds: every rule is well
    formed, and the lookup, once there is one, was built from the whole
    list. *)
Definition normalized (l : TelescopePatternList.t) : Prop :=
  Forall (fun p => well_formed p = true) (TelescopePatternList.data l)
  /\ match TelescopePatternList._lookup l with
     | Some lookup =>
         TelescopeParameterLookup._telescope_parameter_list lookup
         = TelescopePatternList.data l
         /\ TelescopeParameterLookup._subarray_global_value lookup
            = TelescopeParameterLookup.init_global_value
                (TelescopePatternList.data l)
     | None => TelescopePatternList.data l = []
     end.

(** The constraints of a [Path] trait disagree with the file system at
    the path [p]: the existence is not the required one, or [p] exists and
    is a directory where none is allowed or a file where none is allowed. *)
Definition violated `{Path.System} (self : Path.t) (p : string) : bool :=
  match Path.must_exist self with
  | Some wanted => negb (Bool.eqb (Path.path_exists p) wanted)
  | None => false
  end
  || Path.path_exists p
     && (negb (Path.directory_ok self) && Path.is_dir p
         || negb (Path.file_ok self) && Path.is_file p).

(** The TraitErrors raised by the checks on the resolved path, as
    opposed to [self.error]. *)
Definition path_constraint_failure (why : trait_failure) : bool :=
  match why with
  | PathDoesNotExist | PathMustNotExist | PathIsDirectory | PathIsFile => true
  | _ => false
  end.

(** The rule writes the entry of the type [t] when it is replayed. *)
Definition writes_type `{Builtins} (subarray : SubarrayDescription) (t : string)
    (p : pattern) : bool :=
  bool_decide (t ∈ touched_types subarray p).

(** The rule writes the entry of the telescope id [tel_id] when it is
    replayed: through one of the types it matches, or as an ["id"] rule. *)
Definition writes_id `{Builtins} (subarray : SubarrayDescription) (tel_id : Z)
    (p : pattern) : bool :=
  existsb (fun t => bool_decide (tel_id ∈ get_tel_ids_for_type subarray t))
    (touched_types subarray p)
  || negb (py_eq_str (command p) "type")
     && py_eq_str (command p) "id"
     && match py_int (arg p) with
        | Ok z => bool_decide (z = tel_id)
        | Raise _ => false
        end.

(** The lookup that [validate] leaves on a list of rules: built from the
    rules, and attached when the assigned value carried a subarray. *)
Definition lookup_of `{Builtins} (carried : option SubarrayDescription)
    (rules : list pattern) : TelescopeParameterLookup.t :=
  match carried with
  | Some subarray =>
      (TelescopeParameterLookup.attach_subarray
         (TelescopeParameterLookup.__init__ rules) subarray).1
  | None => TelescopeParameterLookup.__init__ rules
  end.

(** The list after the loop of [validate] has appended [rules] to [acc]. *)
Definition extended `{Builtins} (carried : option SubarrayDescription)
    (acc : TelescopePatternList.t) (rules : list pattern)
  : TelescopePatternList.t :=
  match rules with
  | [] => acc
  | _ =>
      {| TelescopePatternList.data := TelescopePatternList.data acc ++ rules;
         TelescopePatternList._lookup :=
           Some (lookup_of carried (TelescopePatternList.data acc ++ rules));
         TelescopePatternList._subarray :=
           match carried with
           | Some subarray => Some subarray
           | None => TelescopePatternList._subarray acc
           end |}
  end.

(** [sep] occurs somewhere in [s]. *)
Fixpoint occurs (sep s : string) : bool :=
  match Path.strip_prefix sep s with
  | Some _ => true
  | None =>
      match s with
      | EmptyString => false
      | String _ s' => occurs sep s'
      end
  end.

(** ** Properties of TelescopeParameterLookup *)

Section LookupProperties.
Context `{Builtins}.
Import TelescopeParameterLookup.

Lemma init_global_value_from (params : list pattern) (start : option pyobj) :
  fold_left
    (fun global param =>
       if py_eq_str (arg param) "*" then Some (value param) else global)
    params start
  = match last (star_rules params) with
    | Some p => Some (value p)
    | None => start
    end.
Proof.
  revert start. induction params as [|p params IH]; intros start; simpl.
  - reflexivity.
  - rewrite IH. unfold star_rules; simpl.
    destruct (py_eq_str (arg p) "*") eqn:E; [|reflexivity].
    fold (star_rules params).
    rewrite last_cons. destruct (last (star_rules params)); reflexivity.
Qed.

Lemma init_global_value_last (params : list pattern) :
  init_global_value params = value <$> last (star_rules params).
Proof.
  unfold init_global_value. rewrite init_global_value_from.
  destruct (last (star_rules params)); reflexivity.
Qed.

Lemma attach_subarray_global (lookup : t) (subarray : SubarrayDescription) :
  _subarray_global_value (attach_subarray lookup subarray).1
  = _subarray_global_value lookup.
Proof. reflexivity. Qed.

Lemma attach_subarray_params (lookup : t) (subarray : SubarrayDescription) :
  _telescope_parameter_list (attach_subarray lookup subarray).1
  = _telescope_parameter_list lookup.
Proof. reflexivity. Qed.

Lemma attach_all_global (subarrays : list SubarrayDescription) (lookup : t) :
  _subarray_global_value (attach_all lookup subarrays)
  = _subarray_global_value lookup.
Proof.
  revert lookup. induction subarrays as [|c cs IH]; intros lookup; simpl.
  - reflexivity.
  - unfold attach_all in *. simpl. rewrite IH. apply attach_subarray_global.
Qed.

Lemma getitem_none (lookup : t) :
  __getitem__ lookup PNone
  = match _subarray_global_value lookup with
    | Some v => Ok v
    | None => Raise NoDefault
    end.
Proof. reflexivity. Qed.

Lemma star_rules_nonempty (params : list pattern) (p : pattern) :
  In p params -> arg p = PStr "*" -> exists q, last (star_rules params) = Some q.
Proof.
  intros Hin Harg.
  assert (Hp : In p (star_rules params)).
  { unfold star_rules. apply filter_In. split; [assumption|].
    rewrite Harg. reflexivity. }
  destruct (star_rules params) as [|a l] eqn:E using rev_ind.
  - destruct Hp.
  - rewrite last_snoc. eauto.
Qed.

(** C10: the global value is fixed by [__init__] from the parameter list
    alone: when some rule has the argument ["*"], whatever its command,
    [lookup[None]] is the value of the last such rule before any
    [attach_subarray] and after any sequence of them. *)
Theorem global_value_fixed_at_construction
    (params : list pattern) (p : pattern) :
  In p params -> arg p = PStr "*" ->
  exists q,
    last (star_rules params) = Some q
    /\ __getitem__ (__init__ params) PNone = Ok (value q)
    /\ forall subarrays,
         __getitem__ (attach_all (__init__ params) subarrays) PNone
         = Ok (value q).
Proof.
  intros Hin Harg.
  destruct (star_rules_nonempty params p Hin Harg) as [q Hq].
  exists q. split; [exact Hq|].
  assert (Hg : _subarray_global_value (__init__ params) = Some (value q)).
  { simpl. rewrite init_global_value_last, Hq. reflexivity. }
  split.
  - rewrite getitem_none, Hg. reflexivity.
  - intros subarrays. rewrite getitem_none, attach_all_global, Hg. reflexivity.
Qed.

(** C3, as the code has it: before any [attach_subarray], a lookup by
    telescope id or by type name raises the "no subarray attached"
    ValueError; [lookup[None]] does not depend on the subarray: it is the
    value of the last rule with argument ["*"], and the "no global value"
    KeyError when there is none. *)
Theorem getitem_before_attach (params : list pattern) :
  (forall tel_id, __getitem__ (__init__ params) (PInt tel_id) = Raise NotBound)
  /\ (forall tel_type, __getitem__ (__init__ params) (PStr tel_type) = Raise NotBound)
  /\ __getitem__ (__init__ params) PNone
     = match last (star_rules params) with
       | Some q => Ok (value q)
       | None => Raise NoDefault
       end.
Proof.
  split; [reflexivity|]. split; [reflexivity|].
  rewrite getitem_none. simpl. rewrite init_global_value_last.
  destruct (last (star_rules params)); reflexivity.
Qed.

(** C5: [attach_subarray] rebuilds both maps from the parameter list
    alone: attaching a subarray and then another leaves the lookup in the
    state (and with the outcome) of attaching the second one to a fresh
    lookup of the same list. *)
Theorem attach_subarray_recomputes
    (params : list pattern) (c c' : SubarrayDescription) :
  let rebound := attach_subarray (attach_subarray (__init__ params) c).1 c' in
  let fresh := attach_subarray (__init__ params) c' in
  _value_for_tel_id rebound.1 = _value_for_tel_id fresh.1
  /\ _value_for_type rebound.1 = _value_for_type fresh.1
  /\ rebound = fresh.
Proof. repeat split. Qed.

(** *** Replay order *)

Lemma insert_all_kept (v : pyobj) (ids : list Z) (m : gmap Z pyobj) (k : Z) :
  m !! k = Some v ->
  fold_left (fun for_id tel_id => <[tel_id := v]> for_id) ids m !! k = Some v.
Proof.
  revert m. induction ids as [|a ids IH]; intros m Hm; simpl; [exact Hm|].
  apply IH. destruct (decide (a = k)) as [->|Hne].
  - apply lookup_insert_eq.
  - rewrite lookup_insert_ne; assumption.
Qed.

Lemma insert_all_written (v : pyobj) (ids : list Z) (m : gmap Z pyobj) (k : Z) :
  In k ids ->
  fold_left (fun for_id tel_id => <[tel_id := v]> for_id) ids m !! k = Some v.
Proof.
  revert m. induction ids as [|a ids IH]; intros m Hin; simpl; [destruct Hin|].
  destruct Hin as [->|Hin].
  - apply insert_all_kept, lookup_insert_eq.
  - apply IH, Hin.
Qed.

Lemma set_for_type_kept_id (c : SubarrayDescription) (v : pyobj)
    (types : list string) (maps : gmap Z pyobj * gmap string pyobj) (k : Z) :
  maps.1 !! k = Some v ->
  (fold_left (set_for_type c v) types maps).1 !! k = Some v.
Proof.
  revert maps. induction types as [|t types IH]; intros maps Hm; simpl; [exact Hm|].
  apply IH. simpl. apply insert_all_kept, Hm.
Qed.

Lemma set_for_type_written_id (c : SubarrayDescription) (v : pyobj)
    (types : list string) (maps : gmap Z pyobj * gmap string pyobj)
    (t : string) (k : Z) :
  In t types -> In k (get_tel_ids_for_type c t) ->
  (fold_left (set_for_type c v) types maps).1 !! k = Some v.
Proof.
  revert maps. induction types as [|a types IH]; intros maps Ht Hk; simpl;
    [destruct Ht|].
  destruct Ht as [->|Ht].
  - apply set_for_type_kept_id. simpl. apply insert_all_written, Hk.
  - apply IH; assumption.
Qed.

Lemma set_for_type_kept_type (c : SubarrayDescription) (v : pyobj)
    (types : list string) (maps : gmap Z pyobj * gmap string pyobj) (t : string) :
  maps.2 !! t = Some v ->
  (fold_left (set_for_type c v) types maps).2 !! t = Some v.
Proof.
  revert maps. induction types as [|a types IH]; intros maps Hm; simpl; [exact Hm|].
  apply IH. simpl. destruct (decide (a = t)) as [->|Hne].
  - apply lookup_insert_eq.
  - rewrite lookup_insert_ne; assumption.
Qed.

Lemma set_for_type_written_type (c : SubarrayDescription) (v : pyobj)
    (types : list string) (maps : gmap Z pyobj * gmap string pyobj) (t : string) :
  In t types ->
  (fold_left (set_for_type c v) types maps).2 !! t = Some v.
Proof.
  revert maps. induction types as [|a types IH]; intros maps Ht; simpl;
    [destruct Ht|].
  destruct Ht as [->|Ht].
  - apply set_for_type_kept_type. simpl. apply lookup_insert_eq.
  - apply IH, Ht.
Qed.

(** What one replayed rule leaves in the maps. *)
Lemma attach_pattern_writes (c : SubarrayDescription) (p : pattern)
    (maps maps' : gmap Z pyobj * gmap string pyobj) :
  attach_pattern c maps p = Ok maps' ->
  (forall tel_id, touches_id c p tel_id -> maps'.1 !! tel_id = Some (value p))
  /\ (forall t, In t (touched_types c p) -> maps'.2 !! t = Some (value p)).
Proof.
  unfold attach_pattern, touches_id, touched_types.
  destruct (py_eq_str (command p) "type") eqn:Etype.
  - destruct (matched_tel_types c (arg p)) as [matched|e]; simpl; [|discriminate].
    intros [= <-]. split.
    + intros tel_id [(t & Ht & Hid)|(Hno & _)]; [|discriminate].
      eapply set_for_type_written_id; eassumption.
    + intros t Ht. apply set_for_type_written_type, Ht.
  - destruct (py_eq_str (command p) "id") eqn:Eid; [|discriminate].
    destruct (py_int (arg p)) as [z|e] eqn:Eint; simpl; [|discriminate].
    intros [= <-]. split.
    + intros tel_id [(t & [] & _)|(_ & _ & [= <-])]. simpl.
      apply lookup_insert_eq.
    + intros t [].
Qed.

Lemma attach_loop_snoc (c : SubarrayDescription) (before : list pattern)
    (p : pattern) (maps : gmap Z pyobj * gmap string pyobj) :
  attach_loop c (before ++ [p]) maps
  = match attach_loop c before maps with
    | (maps', None) =>
        match attach_pattern c maps' p with
        | Ok maps'' => (maps'', None)
        | Raise e => (maps', Some e)
        end
    | (maps', Some e) => (maps', Some e)
    end.
Proof.
  revert maps. induction before as [|q before IH]; intros maps; simpl.
  - destruct (attach_pattern c maps p); reflexivity.
  - destruct (attach_pattern c maps q); [apply IH|reflexivity].
Qed.

Lemma matched_tel_types_known (c : SubarrayDescription) (a : pyobj)
    (matched : list string) (t : string) :
  matched_tel_types c a = Ok matched -> In t matched -> In t (telescope_types c).
Proof.
  unfold matched_tel_types.
  destruct (telescope_types c) as [|t0 types] eqn:E.
  - intros [= <-] [].
  - destruct a as [| | | |pat| |]; try discriminate. intros [= <-] Hin.
    change (In t (List.filter (fun t => fnmatch t pat) (t0 :: types))) in Hin.
    apply filter_In in Hin. apply Hin.
Qed.

Lemma touched_types_known (c : SubarrayDescription) (p : pattern) (t : string) :
  In t (touched_types c p) -> In t (telescope_types c).
Proof.
  unfold touched_types.
  destruct (py_eq_str (command p) "type"); [|intros []].
  destruct (matched_tel_types c (arg p)) eqn:E; [|intros []].
  eapply matched_tel_types_known, E.
Qed.

(** The last rule of a list wins for everything it touches, whatever
    the rules before it wrote. *)
Lemma last_rule_wins (before : list pattern) (p : pattern)
    (c : SubarrayDescription) (bound : t) :
  attach_subarray (__init__ (before ++ [p])) c = (bound, None) ->
  (forall tel_id, touches_id c p tel_id ->
                  __getitem__ bound (PInt tel_id) = Ok (value p))
  /\ (forall tel_type, In tel_type (touched_types c p) ->
                       __getitem__ bound (PStr tel_type) = Ok (value p)).
Proof.
  unfold attach_subarray. simpl. rewrite attach_loop_snoc.
  destruct (attach_loop c before (∅, ∅)) as [maps' [e|]]; [discriminate|].
  destruct (attach_pattern c maps' p) as [maps''|e] eqn:Ep; [|discriminate].
  simpl. intros [= <-].
  destruct (attach_pattern_writes _ _ _ _ Ep) as [Hids Htypes].
  split.
  - intros tel_id Htouch. unfold __getitem__, value_for_tel_id. simpl.
    rewrite (Hids _ Htouch). reflexivity.
  - intros tel_type Htouch. unfold __getitem__, value_for_type. simpl.
    rewrite bool_decide_eq_true_2.
    + rewrite (Htypes _ Htouch). reflexivity.
    + apply elem_of_list_to_set, list_elem_of_In.
      eapply touched_types_known, Htouch.
Qed.

Lemma matched_tel_types_str (c : SubarrayDescription) (pat : string) :
  matched_tel_types c (PStr pat)
  = Ok (List.filter (fun t => fnmatch t pat) (telescope_types c)).
Proof.
  unfold matched_tel_types. destruct (telescope_types c); reflexivity.
Qed.

(** *** Well-formed rules *)

Lemma well_formed_star (p : pattern) :
  well_formed p = true ->
  py_eq_str (arg p) "*" = py_eq_str (command p) "type" && py_eq_str (arg p) "*".
Proof.
  unfold well_formed.
  destruct (command p) as [| | | |c| |]; try discriminate.
  destruct (arg p) as [| | | |a| |]; try discriminate.
  - intros _. simpl. rewrite andb_false_r. reflexivity.
  - intros ->%bool_decide_eq_true. reflexivity.
Qed.

Lemma star_rules_well_formed (params : list pattern) :
  Forall (fun p => well_formed p = true) params ->
  star_rules params = type_star_rules params.
Proof.
  unfold star_rules, type_star_rules.
  induction 1 as [|p params Hp _ IH]; simpl; [reflexivity|].
  rewrite <- (well_formed_star p Hp), IH. reflexivity.
Qed.

Lemma attach_pattern_well_formed (c : SubarrayDescription) (p : pattern)
    (maps : gmap Z pyobj * gmap string pyobj) :
  well_formed p = true -> exists maps', attach_pattern c maps p = Ok maps'.
Proof.
  unfold well_formed, attach_pattern.
  destruct (command p) as [| | | |cmd| |]; try discriminate.
  destruct (arg p) as [| |z| |pat| |]; try discriminate;
    intros ->%bool_decide_eq_true; simpl.
  - eauto.
  - rewrite matched_tel_types_str. simpl. eauto.
Qed.

(** Replaying well-formed rules raises nothing. *)
Lemma attach_loop_well_formed (c : SubarrayDescription) (params : list pattern) :
  Forall (fun p => well_formed p = true) params ->
  forall maps, (attach_loop c params maps).2 = None.
Proof.
  induction 1 as [|p params Hp _ IH]; intros maps; simpl; [reflexivity|].
  destruct (attach_pattern_well_formed c p maps Hp) as [maps' ->]. apply IH.
Qed.

(** C4: for a list of well-formed rules, [lookup[None]] raises the "no
    global value" KeyError when no rule is [("type", "*", _)], and returns
    the value of the last such rule otherwise; this holds before and after
    any sequence of [attach_subarray] calls. *)
Theorem default_needs_type_star_rule
    (rules : list pattern) (subarrays : list SubarrayDescription) :
  Forall (fun p => well_formed p = true) rules ->
  (type_star_rules rules = [] ->
   __getitem__ (attach_all (__init__ rules) subarrays) PNone = Raise NoDefault)
  /\ (forall q,
         last (type_star_rules rules) = Some q ->
         __getitem__ (attach_all (__init__ rules) subarrays) PNone
         = Ok (value q)).
Proof.
  intros Hwf.
  rewrite getitem_none, attach_all_global. simpl.
  rewrite init_global_value_last, (star_rules_well_formed _ Hwf).
  split.
  - intros ->. reflexivity.
  - intros q ->. reflexivity.
Qed.

End LookupProperties.

(** ** Properties of TelescopeParameter *)

Section ParameterProperties.
Context `{Builtins}.
Import TelescopeParameter.

Lemma id_argument_int (a a' : pyobj) :
  id_argument a = Ok a' -> exists z, a' = PInt z.
Proof.
  unfold id_argument. destruct (py_int a) as [z|e].
  - intros [= <-]. eauto.
  - destruct e; discriminate.
Qed.

Lemma validate_pattern_shape (self : t) (pattern entry : pyobj) :
  validate_pattern self pattern = Ok entry ->
  exists c a v,
    entry = PTuple [PStr c; a; v]
    /\ well_formed (Pattern (PStr c) a v) = true.
Proof.
  unfold validate_pattern.
  destruct (py_len pattern) as [n|]; simpl; [|discriminate].
  destruct (negb (n =? 3)%nat); [discriminate|].
  destruct (py_unpack3 pattern) as [[[c a] v]|]; simpl; [|discriminate].
  destruct (_validate_entry self v) as [v1|]; simpl; [|discriminate].
  destruct c as [| | | |c| |]; try discriminate.
  destruct (bool_decide (c ∈ ["type"; "id"])) eqn:Ein; simpl; [|discriminate].
  apply bool_decide_eq_true in Ein.
  destruct (bool_decide (c = "type")) eqn:Etype.
  - apply bool_decide_eq_true in Etype. subst c.
    destruct a as [| | | |s| |]; simpl; try discriminate.
    destruct (_validate_entry self v1) as [v2|]; simpl; [|discriminate].
    intros [= <-]. exists "type", (PStr s), v2. split; reflexivity.
  - apply bool_decide_eq_false in Etype.
    assert (c = "id") as ->.
    { apply elem_of_cons in Ein as [->|Ein]; [contradiction|].
      apply list_elem_of_singleton in Ein. exact Ein. }
    simpl. destruct (id_argument a) as [a'|] eqn:Eid; simpl; [|discriminate].
    destruct (id_argument_int _ _ Eid) as [z ->].
    destruct (_validate_entry self v1) as [v2|]; simpl; [|discriminate].
    intros [= <-]. exists "id", (PInt z), v2. split; reflexivity.
Qed.

Lemma single_to_pattern_well_formed (c : string) (a v : pyobj) :
  well_formed (Pattern (PStr c) a v) = true ->
  TelescopePatternList.single_to_pattern (PTuple [PStr c; a; v])
  = Ok (Pattern (PStr c) a v).
Proof.
  unfold well_formed, TelescopePatternList.single_to_pattern. simpl.
  destruct a; try discriminate; intros ->%bool_decide_eq_true; reflexivity.
Qed.

Lemma attach_keeps_normalized (l : TelescopePatternList.t)
    (c : SubarrayDescription) :
  normalized l -> normalized (TelescopePatternList.attach_subarray l c).1.
Proof.
  unfold normalized, TelescopePatternList.attach_subarray.
  intros [Hwf Hlk]. destruct (TelescopePatternList._lookup l); simpl; auto.
Qed.

Lemma attach_keeps_lookup (l : TelescopePatternList.t)
    (c : SubarrayDescription) :
  is_Some (TelescopePatternList._lookup l) ->
  is_Some (TelescopePatternList._lookup
             (TelescopePatternList.attach_subarray l c).1).
Proof.
  unfold TelescopePatternList.attach_subarray.
  intros [lookup ->]. simpl. eauto.
Qed.

Lemma carried_attach_normalized (carried : option SubarrayDescription)
    (fresh l' : TelescopePatternList.t) :
  normalized fresh -> is_Some (TelescopePatternList._lookup fresh) ->
  match carried with
  | Some subarray =>
      match TelescopePatternList.attach_subarray fresh subarray with
      | (attached, None) => Ok attached
      | (_, Some e) => Raise e
      end
  | None => Ok fresh
  end = Ok l' ->
  normalized l' /\ is_Some (TelescopePatternList._lookup l').
Proof.
  intros Hfresh Hsome. destruct carried as [subarray|].
  - pose proof (attach_keeps_normalized fresh subarray Hfresh) as Hatt.
    pose proof (attach_keeps_lookup fresh subarray Hsome) as Hlk.
    destruct (TelescopePatternList.attach_subarray fresh subarray)
      as [attached [e|]]; [discriminate|].
    intros [= <-]. split; assumption.
  - intros [= <-]. split; assumption.
Qed.

Lemma validate_step_normalized (self : t) (carried : option SubarrayDescription)
    (l l' : TelescopePatternList.t) (pattern : pyobj) :
  normalized l -> validate_step self carried l pattern = Ok l' ->
  normalized l' /\ is_Some (TelescopePatternList._lookup l').
Proof.
  intros [Hwf _]. unfold validate_step.
  destruct (validate_pattern self pattern) as [entry|] eqn:Ev; simpl;
    [|discriminate].
  destruct (validate_pattern_shape _ _ _ Ev) as (c & a & v & -> & Hp).
  unfold TelescopePatternList.append.
  rewrite (single_to_pattern_well_formed _ _ _ Hp).
  intros Hstep.
  destruct (deepcopy_depth <? length (TelescopePatternList.data l))%nat;
    [simpl in Hstep; discriminate|].
  eapply (carried_attach_normalized carried
            {| TelescopePatternList.data :=
                 TelescopePatternList.data l ++ [Pattern (PStr c) a v];
               TelescopePatternList._lookup :=
                 Some (TelescopeParameterLookup.__init__
                         (TelescopePatternList.data l ++ [Pattern (PStr c) a v]));
               TelescopePatternList._subarray :=
                 TelescopePatternList._subarray l |});
    [| |exact Hstep].
  - split; simpl; [|split; reflexivity].
    apply Forall_app. split; [exact Hwf|]. constructor; [exact Hp|constructor].
  - simpl. eauto.
Qed.

Lemma validate_loop_normalized (self : t) (carried : option SubarrayDescription)
    (patterns : list pyobj) (l l' : TelescopePatternList.t) :
  normalized l -> validate_loop self carried l patterns = Ok l' ->
  normalized l'.
Proof.
  revert l. induction patterns as [|pattern rest IH]; intros l Hl; simpl.
  - intros [= <-]. exact Hl.
  - destruct (validate_step self carried l pattern) as [next|] eqn:Es; simpl;
      [|discriminate].
    apply IH. eapply validate_step_normalized; eassumption.
Qed.

Lemma new_normalized : normalized TelescopePatternList.new.
Proof. split; simpl; [constructor|reflexivity]. Qed.

(** Whatever [validate] returns is a list of well-formed rules whose
    lookup was built from these rules. *)
Lemma validate_normalized (self : t) (value : assigned)
    (l : TelescopePatternList.t) :
  validate self value = Ok l -> normalized l.
Proof.
  unfold validate. destruct (as_list self value) as [value'|]; simpl;
    [|discriminate].
  apply validate_loop_normalized, new_normalized.
Qed.

(** The lookup that [validate] leaves on a list answers [lookup[None]]
    from the rules of that list. *)
Lemma validate_default (self : t) (raw : assigned)
    (l : TelescopePatternList.t) (lookup : TelescopeParameterLookup.t)
    (subarrays : list SubarrayDescription) :
  validate self raw = Ok l ->
  TelescopePatternList.tel l = Ok lookup ->
  Forall (fun p => well_formed p = true) (TelescopePatternList.data l)
  /\ TelescopeParameterLookup.__getitem__ (attach_all lookup subarrays) PNone
     = TelescopeParameterLookup.__getitem__
         (attach_all
            (TelescopeParameterLookup.__init__ (TelescopePatternList.data l))
            subarrays) PNone.
Proof.
  intros Hv Htel. destruct (validate_normalized _ _ _ Hv) as [Hwf Hlk].
  unfold TelescopePatternList.tel in Htel.
  destruct (TelescopePatternList._lookup l) as [lk|]; [|discriminate].
  injection Htel as ->. destruct Hlk as [_ Hglobal].
  split; [exact Hwf|].
  rewrite !getitem_none, !attach_all_global, Hglobal. reflexivity.
Qed.

Lemma validate_scalar (self : t) (v : pyobj) :
  is_list (Plain v) = false ->
  _validate_entry self v = Ok v ->
  validate self (Plain v)
  = Ok {| TelescopePatternList.data := [Pattern (PStr "type") (PStr "*") v];
          TelescopePatternList._lookup :=
            Some (TelescopeParameterLookup.__init__
                    [Pattern (PStr "type") (PStr "*") v]);
          TelescopePatternList._subarray := None |}.
Proof.
  intros Hlist Hv. unfold validate, as_list. rewrite Hlist, Hv. simpl.
  unfold validate_step, validate_pattern. simpl. rewrite Hv. simpl.
  rewrite Hv. reflexivity.
Qed.

Lemma validate_scalar_as (self : t) (v v' : pyobj) :
  is_list (Plain v) = false ->
  _validate_entry self v = Ok v' ->
  _validate_entry self v' = Ok v' ->
  validate self (Plain v)
  = Ok {| TelescopePatternList.data := [Pattern (PStr "type") (PStr "*") v'];
          TelescopePatternList._lookup :=
            Some (TelescopeParameterLookup.__init__
                    [Pattern (PStr "type") (PStr "*") v']);
          TelescopePatternList._subarray := None |}.
Proof.
  intros Hlist Hv Hv'. unfold validate, as_list. rewrite Hlist, Hv. simpl.
  unfold validate_step, validate_pattern. simpl. rewrite Hv'. simpl.
  rewrite Hv'. reflexivity.
Qed.

(** C2, as the code has it: a single value [v] is handed to the inner
    trait.  When the trait accepts it as [v'] (and accepts [v'] as it is),
    the value becomes the one rule [("type", "*", v')]; once a subarray is
    attached, [lookup[None]] is [v'] and so is the lookup of every telescope
    id of every telescope type of the subarray; [v'] is [v] itself when the
    trait returns its input.  When the trait rejects [v], [validate] raises
    the exception of the trait. *)
Theorem scalar_applies_to_every_telescope
    (self : t) (v : pyobj) (c : SubarrayDescription) :
  is_list (Plain v) = false ->
  (forall v',
      (forall name, fnmatch name "*" = true) ->
      _validate_entry self v = Ok v' ->
      _validate_entry self v' = Ok v' ->
      exists l bound lookup,
        validate self (Plain v) = Ok l
        /\ TelescopePatternList.data l = [Pattern (PStr "type") (PStr "*") v']
        /\ TelescopePatternList.attach_subarray l c = (bound, None)
        /\ TelescopePatternList.tel bound = Ok lookup
        /\ TelescopeParameterLookup.__getitem__ lookup PNone = Ok v'
        /\ forall tel_type tel_id,
             In tel_type (telescope_types c) ->
             In tel_id (get_tel_ids_for_type c tel_type) ->
             TelescopeParameterLookup.__getitem__ lookup (PInt tel_id) = Ok v')
  /\ (forall e, _validate_entry self v = Raise e ->
                validate self (Plain v) = Raise e).
Proof.
  intros Hlist. split.
  - intros v' Hstar Hv Hv'.
    set (rule := Pattern (PStr "type") (PStr "*") v').
    destruct (TelescopeParameterLookup.attach_subarray
                (TelescopeParameterLookup.__init__ [rule]) c)
      as [lookup e] eqn:Hattach.
    assert (He : e = None).
    { revert Hattach. unfold TelescopeParameterLookup.attach_subarray. simpl.
      unfold TelescopeParameterLookup.attach_pattern. simpl.
      rewrite matched_tel_types_str. simpl. intros [= _ <-]. reflexivity. }
    subst e.
    exists {| TelescopePatternList.data := [rule];
              TelescopePatternList._lookup :=
                Some (TelescopeParameterLookup.__init__ [rule]);
              TelescopePatternList._subarray := None |},
           {| TelescopePatternList.data := [rule];
              TelescopePatternList._lookup := Some lookup;
              TelescopePatternList._subarray := Some c |},
           lookup.
    split; [apply validate_scalar_as; assumption|].
    split; [reflexivity|].
    split.
    { unfold TelescopePatternList.attach_subarray.
      cbn [TelescopePatternList._lookup TelescopePatternList.data].
      rewrite Hattach. reflexivity. }
    split; [reflexivity|].
    split.
    { rewrite getitem_none.
      replace lookup with
        (TelescopeParameterLookup.attach_subarray
           (TelescopeParameterLookup.__init__ [rule]) c).1
        by (rewrite Hattach; reflexivity).
      reflexivity. }
    intros tel_type tel_id Htype Hid.
    destruct (last_rule_wins [] rule c lookup Hattach) as [Hids _].
    apply (Hids tel_id). left. exists tel_type. split; [|exact Hid].
    unfold touched_types. simpl. rewrite matched_tel_types_str.
    apply filter_In. split; [exact Htype|apply Hstar].
  - intros e Hraise. unfold validate, as_list. rewrite Hlist, Hraise.
    reflexivity.
Qed.

(** *** Rule shape *)

(** The malformed rules that [validate] turns into a TraitError: a
    command that is no string or is neither ["type"] nor ["id"], a
    ["type"] rule whose argument is no string, and an ["id"] rule whose
    argument makes [int] raise ValueError. *)
Lemma validate_pattern_rejects (self : t) (cmd a v v' : pyobj) :
  _validate_entry self v = Ok v' ->
  ((forall c, cmd <> PStr c) ->
   validate_pattern self (PTuple [cmd; a; v]) = Raise (TraitError CommandNotString))
  /\ (forall c, cmd = PStr c -> c <> "type" -> c <> "id" ->
      validate_pattern self (PTuple [cmd; a; v])
      = Raise (TraitError CommandUnknown))
  /\ (cmd = PStr "type" -> (forall s, a <> PStr s) ->
      validate_pattern self (PTuple [cmd; a; v])
      = Raise (TraitError TypeArgumentNotString))
  /\ (forall why, cmd = PStr "id" -> py_int a = Raise (ValueError why) ->
      validate_pattern self (PTuple [cmd; a; v])
      = Raise (TraitError IdArgumentNotInt)).
Proof.
  intros Hv. unfold validate_pattern. simpl. rewrite Hv. simpl.
  repeat split.
  - intros Hcmd. destruct cmd; try reflexivity. destruct (Hcmd s eq_refl).
  - intros c -> Htype Hid. rewrite bool_decide_eq_false_2; [reflexivity|].
    intros Hin. apply elem_of_cons in Hin as [->|Hin]; [contradiction|].
    apply list_elem_of_singleton in Hin. contradiction.
  - intros -> Ha. simpl. destruct a; try reflexivity. destruct (Ha s eq_refl).
  - intros why -> Hint. simpl. unfold id_argument. rewrite Hint. reflexivity.
Qed.

(** C7, at the input where the code departs from it: for the rule
    [("id", None, 1.0)], [int(None)] raises TypeError, which the handler
    for ValueError lets through; [validate] raises TypeError and no
    TraitError. *)
Theorem id_argument_none_escapes :
  validate FloatTelescopeParameter
    (Plain (PList [PTuple [PStr "id"; PNone; PFloat 1]]))
  = Raise TypeError.
Proof. reflexivity. Qed.

(** *** Assignment *)

(** Assigning a list with at least one rule to a slot whose value has a
    subarray raises nothing and leaves a value with that subarray and a
    lookup attached to it. *)
Lemma set_rebinds_nonempty (self : t) (old new_value : TelescopePatternList.t)
    (c : SubarrayDescription) (raw raw' : assigned) :
  TelescopePatternList._subarray old = Some c ->
  as_list self raw = Ok raw' ->
  validate self raw' = Ok new_value ->
  TelescopePatternList.data new_value <> [] ->
  exists stored lookup,
    set self (Some old) raw = (Some stored, None)
    /\ TelescopePatternList.data stored = TelescopePatternList.data new_value
    /\ TelescopePatternList._subarray stored = Some c
    /\ TelescopePatternList.tel stored = Ok lookup
    /\ lookup
       = (TelescopeParameterLookup.attach_subarray
            (TelescopeParameterLookup.__init__
               (TelescopePatternList.data new_value)) c).1
    /\ (forall key, TelescopeParameterLookup.__getitem__ lookup key
                    <> Raise NotBound).
Proof.
  intros Hold Hraw Hval Hne. unfold set. rewrite Hraw, Hval. simpl.
  rewrite Hold. simpl.
  destruct (validate_normalized _ _ _ Hval) as [Hwf Hlk].
  unfold TelescopePatternList.attach_subarray.
  destruct (TelescopePatternList._lookup new_value) as [lk|];
    [|contradiction].
  destruct Hlk as [Hparams Hglobal]. cbv zeta.
  assert (Hstate : (TelescopeParameterLookup.attach_subarray lk c).1
                   = (TelescopeParameterLookup.attach_subarray
                        (TelescopeParameterLookup.__init__
                           (TelescopePatternList.data new_value)) c).1).
  { unfold TelescopeParameterLookup.attach_subarray. simpl.
    rewrite Hparams, Hglobal. reflexivity. }
  assert (Hquiet : (TelescopeParameterLookup.attach_subarray lk c).2 = None).
  { unfold TelescopeParameterLookup.attach_subarray. simpl.
    rewrite Hparams. apply attach_loop_well_formed, Hwf. }
  rewrite Hquiet, Hstate.
  eexists _, _. repeat split.
  intros key. unfold TelescopeParameterLookup.__getitem__. simpl.
  destruct key; simpl; try discriminate.
  - destruct (TelescopeParameterLookup.init_global_value _); discriminate.
  - unfold TelescopeParameterLookup.value_for_tel_id. simpl.
    destruct (_ !! _); discriminate.
  - unfold TelescopeParameterLookup.value_for_tel_id. simpl.
    destruct (_ !! _); discriminate.
  - unfold TelescopeParameterLookup.value_for_type. simpl.
    destruct (bool_decide _); [|discriminate].
    destruct (_ !! _); discriminate.
Qed.

(** C6, at the input where the code departs from it: assigning the
    empty list to a slot whose value has a subarray.  [validate] builds
    the lookup inside its loop, so the new list has none, and
    [attach_subarray] raises AttributeError; the stored list has the
    subarray and no lookup. *)
Theorem set_empty_list_loses_lookup
    (self : t) (old : TelescopePatternList.t) (c : SubarrayDescription) :
  TelescopePatternList._subarray old = Some c ->
  set self (Some old) (Plain (PList []))
  = (Some {| TelescopePatternList.data := [];
             TelescopePatternList._lookup := None;
             TelescopePatternList._subarray := Some c |},
     Some AttributeError).
Proof. intros Hold. unfold set. simpl. rewrite Hold. reflexivity. Qed.

End ParameterProperties.

(** ** Properties of Path *)

Section PathProperties.
Context `{Path.System}.
Import Path.

Lemma partition_tail_prefix (sep rest : string) :
  partition_tail sep (sep ++ rest) = rest.
Proof.
  assert (Hstrip : strip_prefix sep (sep ++ rest) = Some rest).
  { induction sep as [|a sep IH]; simpl; [destruct rest; reflexivity|].
    rewrite bool_decide_eq_true_2 by reflexivity. exact IH. }
  destruct sep as [|a sep]; simpl.
  - destruct rest; reflexivity.
  - simpl in Hstrip. rewrite Hstrip. reflexivity.
Qed.

Lemma validate_text (self : t) (s : string) (url : ParseResult) :
  expandvars s <> "" -> urlparse (expandvars s) = Some url ->
  validate self (VStr s)
  = (resolved <- resolve (expandvars s) url;; check_constraints self resolved).
Proof.
  intros Hne Hurl.
  change (validate self (VStr s)) with (validate_str self (expandvars s)).
  unfold validate_str.
  rewrite bool_decide_eq_false_2 by exact Hne. rewrite Hurl. reflexivity.
Qed.

Lemma check_constraints_returns (self : t) (resolved : string)
    (r : path_value) :
  check_constraints self resolved = Ok r -> r = VPath (absolute resolved).
Proof.
  unfold check_constraints.
  destruct (must_exist self) as [wanted|]; simpl.
  - destruct (negb _); simpl; [discriminate|].
    destruct (path_exists _); simpl.
    + destruct (negb (directory_ok self) && _); simpl; [discriminate|].
      destruct (negb (file_ok self) && _); simpl; [discriminate|].
      intros [= <-]. reflexivity.
    + intros [= <-]. reflexivity.
  - destruct (path_exists _); simpl.
    + destruct (negb (directory_ok self) && _); simpl; [discriminate|].
      destruct (negb (file_ok self) && _); simpl; [discriminate|].
      intros [= <-]. reflexivity.
    + intros [= <-]. reflexivity.
Qed.

(** C8: [validate] dispatches on the scheme of the parsed text.  With an
    empty scheme or [file] the text is a local path; with [dataset] the
    path comes from [get_dataset_path], called with what follows
    [dataset://], so that [dataset://name] can only validate to the
    absolute form of the path returned for [name]; any scheme other than
    [http], [https], [dataset], [file] and the empty one is rejected by
    [self.error], and so is the empty string. *)
Theorem scheme_dispatch (self : t) :
  (forall s url,
      expandvars s <> "" -> urlparse (expandvars s) = Some url ->
      scheme url = "" \/ scheme url = "file" ->
      validate self (VStr s)
      = check_constraints self (join_path (netloc url) (path url)))
  /\ (forall s url,
         expandvars s <> "" -> urlparse (expandvars s) = Some url ->
         scheme url = "dataset" ->
         validate self (VStr s)
         = (resolved <- get_dataset_path
                          (partition_tail "dataset://" (expandvars s));;
            check_constraints self resolved))
  /\ (forall name url found,
         expandvars ("dataset://" ++ name) = "dataset://" ++ name ->
         urlparse ("dataset://" ++ name) = Some url ->
         scheme url = "dataset" ->
         get_dataset_path name = Ok found ->
         validate self (VStr ("dataset://" ++ name))
         = check_constraints self found
         /\ (forall r, validate self (VStr ("dataset://" ++ name)) = Ok r ->
                       r = VPath (absolute found))
         /\ (violated self (absolute found) = false ->
             validate self (VStr ("dataset://" ++ name))
             = Ok (VPath (absolute found))))
  /\ (forall s url,
         expandvars s <> "" -> urlparse (expandvars s) = Some url ->
         ~ In (scheme url) ["http"; "https"; "dataset"; "file"; ""] ->
         validate self (VStr s) = Raise (TraitError InvalidValue))
  /\ (forall s, expandvars s = "" ->
                validate self (VStr s) = Raise (TraitError InvalidValue)).
Proof.
  repeat apply conj.
  - intros s url Hne Hurl Hscheme. rewrite (validate_text _ _ _ Hne Hurl).
    unfold resolve. destruct Hscheme as [-> | ->]; reflexivity.
  - intros s url Hne Hurl Hscheme. rewrite (validate_text _ _ _ Hne Hurl).
    unfold resolve. rewrite Hscheme. reflexivity.
  - intros name url found Hexp Hurl Hscheme Hfound.
    assert (Hval : validate self (VStr ("dataset://" ++ name))
                   = check_constraints self found).
    { rewrite (validate_text self _ url); rewrite Hexp; [|discriminate|exact Hurl].
      unfold resolve. rewrite Hscheme. simpl.
      change (bind (get_dataset_path
                      (partition_tail "dataset://" ("dataset://" ++ name)))
                (check_constraints self) = check_constraints self found).
      rewrite partition_tail_prefix, Hfound. reflexivity. }
    split; [exact Hval|]. split.
    + intros r. rewrite Hval. apply check_constraints_returns.
    + rewrite Hval. unfold violated, check_constraints.
      destruct (must_exist self) as [wanted|]; simpl;
        destruct (path_exists (absolute found)); simpl;
        try destruct wanted; simpl; try discriminate; try reflexivity;
        destruct (negb (directory_ok self) && is_dir (absolute found));
        simpl; try discriminate;
        destruct (negb (file_ok self) && is_file (absolute found));
        simpl; try discriminate; reflexivity.
  - intros s url Hne Hurl Hscheme. rewrite (validate_text _ _ _ Hne Hurl).
    unfold resolve.
    rewrite !bool_decide_eq_false_2; [reflexivity|..].
    + intros Hin. apply Hscheme.
      apply elem_of_cons in Hin as [Hin|Hin]; [rewrite Hin; simpl; tauto|].
      apply list_elem_of_singleton in Hin. rewrite Hin. simpl. tauto.
    + intros Hin. apply Hscheme. rewrite Hin. simpl. tauto.
    + intros Hin. apply Hscheme.
      apply elem_of_cons in Hin as [Hin|Hin]; [rewrite Hin; simpl; tauto|].
      apply list_elem_of_singleton in Hin. rewrite Hin. simpl. tauto.
  - intros s Hempty.
    change (validate self (VStr s)) with (validate_str self (expandvars s)).
    unfold validate_str. rewrite Hempty. reflexivity.
Qed.

(** C9: the checks on the resolved path raise exactly when the
    constraints disagree with the file system, with an error of their
    own for each cause, and return the absolute path otherwise. *)
Theorem path_constraints (self : t) (resolved : string) :
  let p := absolute resolved in
  (violated self p = true <->
   exists why, path_constraint_failure why = true
               /\ check_constraints self resolved = Raise (TraitError why))
  /\ (violated self p = false ->
      check_constraints self resolved = Ok (VPath p))
  /\ (must_exist self = Some true -> path_exists p = false ->
      check_constraints self resolved = Raise (TraitError PathDoesNotExist))
  /\ (must_exist self = Some false -> path_exists p = true ->
      check_constraints self resolved = Raise (TraitError PathMustNotExist))
  /\ (must_exist self <> Some false -> path_exists p = true ->
      directory_ok self = false -> is_dir p = true ->
      check_constraints self resolved = Raise (TraitError PathIsDirectory))
  /\ (must_exist self <> Some false -> path_exists p = true ->
      directory_ok self = true \/ is_dir p = false ->
      file_ok self = false -> is_file p = true ->
      check_constraints self resolved = Raise (TraitError PathIsFile))
  /\ (forall s url,
         expandvars s <> "" -> urlparse (expandvars s) = Some url ->
         resolve (expandvars s) url = Ok resolved ->
         validate self (VStr s) = check_constraints self resolved).
Proof.
  intros p. unfold violated, check_constraints. fold p.
  repeat apply conj;
    try (destruct (must_exist self) as [[|]|], (path_exists p),
           (directory_ok self), (file_ok self), (is_dir p), (is_file p);
         simpl;
         first
           [ intros _; eexists; split; [|reflexivity]; reflexivity
           | intros (why & _ & Hraise);
             first [ reflexivity | discriminate Hraise ]
           | intros;
             first [ reflexivity | discriminate | congruence | tauto
                   | intuition discriminate ] ]).
  intros s url Hne Hurl Hres. rewrite (validate_text _ _ _ Hne Hurl), Hres.
  reflexivity.
Qed.

End PathProperties.

(** ** Closed instances *)

Section Examples.
#[local] Existing Instance python.
#[local] Existing Instance example_system.

Lemma glob_star (name : string) : glob "*" name = true.
Proof.
  simpl. induction name as [|a name IH]; [reflexivity|].
  simpl in *. exact IH.
Qed.

Lemma python_star (name : string) : fnmatch name "*" = true.
Proof. apply glob_star. Qed.

(** The documented example of the class: a default, an override for a
    family of types, an override for one telescope. *)
Example replay_in_order :
  let lookup :=
    (TelescopeParameterLookup.attach_subarray
       (TelescopeParameterLookup.__init__
          [Pattern (PStr "type") (PStr "*") (PFloat 5);
           Pattern (PStr "type") (PStr "LST_*") (PFloat 2);
           Pattern (PStr "id") (PInt 6) (PFloat 4)])
       example_subarray).1 in
  TelescopeParameterLookup.__getitem__ lookup (PInt 1) = Ok (PFloat 2)
  /\ TelescopeParameterLookup.__getitem__ lookup (PInt 5) = Ok (PFloat 5)
  /\ TelescopeParameterLookup.__getitem__ lookup (PInt 6) = Ok (PFloat 4)
  /\ TelescopeParameterLookup.__getitem__ lookup (PStr "LST_LST_LSTCam")
     = Ok (PFloat 2)
  /\ TelescopeParameterLookup.__getitem__ lookup (PStr "MST_MST_FlashCam")
     = Ok (PFloat 5)
  /\ TelescopeParameterLookup.__getitem__ lookup (PStr "SST_ASTRI_CHEC")
     = Raise (UnknownType "SST_ASTRI_CHEC")
  /\ TelescopeParameterLookup.__getitem__ lookup (PInt 9)
     = Raise (UnresolvedId 9)
  /\ TelescopeParameterLookup.__getitem__ lookup PNone = Ok (PFloat 5).
Proof. vm_compute. repeat split. Qed.

Lemma scalar_applies_to_every_telescope_witness :
  (exists l bound lookup,
      TelescopeParameter.validate FloatTelescopeParameter (Plain (PInt 4))
      = Ok l
      /\ TelescopePatternList.data l
         = [Pattern (PStr "type") (PStr "*") (PFloat 4)]
      /\ TelescopePatternList.attach_subarray l example_subarray
         = (bound, None)
      /\ TelescopePatternList.tel bound = Ok lookup
      /\ TelescopeParameterLookup.__getitem__ lookup PNone = Ok (PFloat 4)
      /\ forall tel_type tel_id,
           In tel_type (telescope_types example_subarray) ->
           In tel_id (get_tel_ids_for_type example_subarray tel_type) ->
           TelescopeParameterLookup.__getitem__ lookup (PInt tel_id)
           = Ok (PFloat 4))
  /\ TelescopeParameter.validate FloatTelescopeParameter (Plain (PTuple []))
     = Raise (TraitError InvalidValue).
Proof.
  split.
  - destruct (scalar_applies_to_every_telescope FloatTelescopeParameter
                (PInt 4) example_subarray eq_refl) as [Haccepted _].
    apply (Haccepted (PFloat 4)).
    + exact python_star.
    + reflexivity.
    + reflexivity.
  - destruct (scalar_applies_to_every_telescope FloatTelescopeParameter
                (PTuple []) example_subarray eq_refl) as [_ Hrejected].
    apply Hrejected. reflexivity.
Defined.

(** A single value that the inner trait rejects is no rule at all:
    [FloatTelescopeParameter] raises TraitError for the text ["high"]. *)
Lemma scalar_rejected_by_inner_trait :
  TelescopeParameter.validate FloatTelescopeParameter (Plain (PStr "high"))
  = Raise (TraitError InvalidValue)
  /\ ~ exists l,
         TelescopeParameter.validate FloatTelescopeParameter
           (Plain (PStr "high")) = Ok l
         /\ TelescopePatternList.data l
            = [Pattern (PStr "type") (PStr "*") (PStr "high")].
Proof.
  split; [reflexivity|]. intros (l & Hl & _). discriminate Hl.
Defined.

(** A lookup that is handed a rule with argument ["*"] answers
    [lookup[None]] before any subarray is attached. *)
Lemma getitem_none_before_attach :
  TelescopeParameterLookup.__getitem__
    (TelescopeParameterLookup.__init__
       [Pattern (PStr "type") (PStr "*") (PFloat 1)]) PNone
  = Ok (PFloat 1)
  /\ TelescopeParameterLookup.__getitem__
       (TelescopeParameterLookup.__init__
          [Pattern (PStr "type") (PStr "*") (PFloat 1)]) PNone
     <> Raise NotBound.
Proof. split; [reflexivity|discriminate]. Qed.

Lemma default_needs_type_star_rule_witness :
  let rules := [Pattern (PStr "type") (PStr "LST_*") (PFloat 2);
                Pattern (PStr "id") (PInt 6) (PFloat 4)] in
  let lookup := TelescopeParameterLookup.__init__ rules in
  (type_star_rules rules = [] ->
   TelescopeParameterLookup.__getitem__
     (attach_all lookup [example_subarray; other_subarray]) PNone
   = Raise NoDefault)
  /\ (forall q,
         last (type_star_rules rules) = Some q ->
         TelescopeParameterLookup.__getitem__
           (attach_all lookup [example_subarray; other_subarray]) PNone
         = Ok (value q)).
Proof.
  apply (default_needs_type_star_rule
           [Pattern (PStr "type") (PStr "LST_*") (PFloat 2);
            Pattern (PStr "id") (PInt 6) (PFloat 4)]).
  repeat constructor.
Defined.

Lemma global_value_fixed_at_construction_witness :
  exists q,
    last (star_rules [Pattern (PStr "id") (PStr "*") (PFloat 7);
                      Pattern (PStr "type") (PStr "LST_*") (PFloat 2)])
    = Some q
    /\ TelescopeParameterLookup.__getitem__
         (TelescopeParameterLookup.__init__
            [Pattern (PStr "id") (PStr "*") (PFloat 7);
             Pattern (PStr "type") (PStr "LST_*") (PFloat 2)]) PNone
       = Ok (value q)
    /\ forall subarrays,
         TelescopeParameterLookup.__getitem__
           (attach_all
              (TelescopeParameterLookup.__init__
                 [Pattern (PStr "id") (PStr "*") (PFloat 7);
                  Pattern (PStr "type") (PStr "LST_*") (PFloat 2)])
              subarrays) PNone
         = Ok (value q).
Proof.
  apply (global_value_fixed_at_construction _
           (Pattern (PStr "id") (PStr "*") (PFloat 7))).
  - simpl. auto.
  - reflexivity.
Defined.

Lemma set_empty_list_loses_lookup_witness :
  let old :=
    {| TelescopePatternList.data :=
         [Pattern (PStr "type") (PStr "*") (PFloat 4)];
       TelescopePatternList._lookup :=
         Some (TelescopeParameterLookup.attach_subarray
                 (TelescopeParameterLookup.__init__
                    [Pattern (PStr "type") (PStr "*") (PFloat 4)])
                 example_subarray).1;
       TelescopePatternList._subarray := Some example_subarray |} in
  TelescopeParameter.set FloatTelescopeParameter (Some old) (Plain (PList []))
  = (Some {| TelescopePatternList.data := [];
             TelescopePatternList._lookup := None;
             TelescopePatternList._subarray := Some example_subarray |},
     Some AttributeError).
Proof.
  apply (set_empty_list_loses_lookup FloatTelescopeParameter). reflexivity.
Defined.

Lemma scheme_dispatch_witness :
  Path.validate existing_file (Path.VStr "dataset://gamma.simtel.gz")
  = Ok (Path.VPath "/data/gamma.simtel.gz")
  /\ Path.validate existing_file (Path.VStr "file:///data/gamma.simtel.gz")
     = Ok (Path.VPath "/data/gamma.simtel.gz")
  /\ Path.validate existing_file (Path.VStr "ftp://host/gamma.simtel.gz")
     = Raise (TraitError InvalidValue)
  /\ Path.validate existing_file (Path.VStr "")
     = Raise (TraitError InvalidValue).
Proof.
  destruct (scheme_dispatch existing_file)
    as (Hlocal & _ & Hdataset & Hother & Hempty).
  split; [|split; [|split]].
  - apply (Hdataset "gamma.simtel.gz"
             {| Path.scheme := "dataset"; Path.netloc := "";
                Path.path := "gamma.simtel.gz" |}
             "/data/gamma.simtel.gz"); reflexivity.
  - apply (Hlocal "file:///data/gamma.simtel.gz"
             {| Path.scheme := "file"; Path.netloc := "";
                Path.path := "/data/gamma.simtel.gz" |});
      [discriminate|reflexivity|right; reflexivity].
  - apply (Hother "ftp://host/gamma.simtel.gz"
             {| Path.scheme := "ftp"; Path.netloc := "";
                Path.path := "host/gamma.simtel.gz" |});
      [discriminate|reflexivity|].
    simpl. intros [Heq|[Heq|[Heq|[Heq|[Heq|[]]]]]]; discriminate Heq.
  - apply Hempty. reflexivity.
Defined.

Lemma path_constraints_witness :
  Path.check_constraints existing_file "/data"
  = Raise (TraitError PathIsDirectory)
  /\ Path.check_constraints existing_file "missing.h5"
     = Raise (TraitError PathDoesNotExist)
  /\ Path.check_constraints existing_file "/data/gamma.simtel.gz"
     = Ok (Path.VPath "/data/gamma.simtel.gz")
  /\ Path.validate existing_file (Path.VStr "/data/gamma.simtel.gz")
     = Path.check_constraints existing_file "/data/gamma.simtel.gz".
Proof.
  split; [|split; [|split]].
  - pose proof (path_constraints existing_file "/data") as Hc.
    cbv zeta in Hc. destruct Hc as (_ & _ & _ & _ & Hdir & _).
    apply Hdir; [discriminate|reflexivity|reflexivity|reflexivity].
  - pose proof (path_constraints existing_file "missing.h5") as Hc.
    cbv zeta in Hc. destruct Hc as (_ & _ & Hmissing & _).
    apply Hmissing; reflexivity.
  - pose proof (path_constraints existing_file "/data/gamma.simtel.gz") as Hc.
    cbv zeta in Hc. destruct Hc as (_ & Hok & _).
    apply Hok. reflexivity.
  - pose proof (path_constraints existing_file "/data/gamma.simtel.gz") as Hc.
    cbv zeta in Hc. destruct Hc as (_ & _ & _ & _ & _ & _ & Hval).
    apply (Hval "/data/gamma.simtel.gz"
             {| Path.scheme := ""; Path.netloc := "";
                Path.path := "/data/gamma.simtel.gz" |});
      [discriminate|reflexivity|reflexivity].
Defined.

(** Assigning a new value to a slot that has a subarray keeps it. *)
Example set_keeps_subarray :
  let old :=
    (TelescopePatternList.attach_subarray
       {| TelescopePatternList.data :=
            [Pattern (PStr "type") (PStr "*") (PFloat 4)];
          TelescopePatternList._lookup :=
            Some (TelescopeParameterLookup.__init__
                    [Pattern (PStr "type") (PStr "*") (PFloat 4)]);
          TelescopePatternList._subarray := None |} example_subarray).1 in
  exists stored lookup,
    TelescopeParameter.set FloatTelescopeParameter (Some old)
      (Plain (PFloat 3))
    = (Some stored, None)
    /\ TelescopePatternList.tel stored = Ok lookup
    /\ TelescopeParameterLookup.__getitem__ lookup (PInt 2) = Ok (PFloat 3)
    /\ TelescopeParameterLookup.__getitem__ lookup (PStr "MST_MST_FlashCam")
       = Ok (PFloat 3).
Proof. eexists _, _. vm_compute. repeat split. Qed.

End Examples.


(** ** Resolution of a lookup *)

Section Resolution.
Context `{Builtins}.
Import TelescopeParameterLookup.

Lemma insert_all_other (v : pyobj) (ids : list Z) (m : gmap Z pyobj) (k : Z) :
  k ∉ ids ->
  fold_left (fun for_id tel_id => <[tel_id := v]> for_id) ids m !! k = m !! k.
Proof.
  revert m. induction ids as [|a ids IH]; intros m Hk; simpl; [reflexivity|].
  apply not_elem_of_cons in Hk as [Hne Hk].
  rewrite IH by exact Hk. apply lookup_insert_ne. congruence.
Qed.

Lemma set_for_type_id (c : SubarrayDescription) (v : pyobj) (types : list string)
    (maps : gmap Z pyobj * gmap string pyobj) (k : Z) :
  (fold_left (set_for_type c v) types maps).1 !! k
  = if existsb (fun t => bool_decide (k ∈ get_tel_ids_for_type c t)) types
    then Some v else maps.1 !! k.
Proof.
  revert maps. induction types as [|t types IH]; intros maps; simpl;
    [reflexivity|].
  rewrite IH. simpl.
  destruct (existsb _ types); [rewrite orb_true_r; reflexivity|].
  rewrite orb_false_r.
  destruct (bool_decide (k ∈ get_tel_ids_for_type c t)) eqn:E.
  - apply bool_decide_eq_true in E.
    apply insert_all_written, list_elem_of_In, E.
  - apply bool_decide_eq_false in E. apply insert_all_other, E.
Qed.

Lemma set_for_type_type (c : SubarrayDescription) (v : pyobj)
    (types : list string) (maps : gmap Z pyobj * gmap string pyobj) (t : string) :
  (fold_left (set_for_type c v) types maps).2 !! t
  = if bool_decide (t ∈ types) then Some v else maps.2 !! t.
Proof.
  revert maps. induction types as [|a types IH]; intros maps;
    [reflexivity|].
  cbn [fold_left]. rewrite IH. cbn [set_for_type snd].
  case_bool_decide as Hrest; case_bool_decide as Hall; try reflexivity.
  - exfalso. apply Hall. right. exact Hrest.
  - apply elem_of_cons in Hall as [->|Hin]; [apply lookup_insert_eq|].
    contradiction.
  - apply lookup_insert_ne. intros ->. apply Hall. left.
Qed.

(** The entries after one replayed rule. *)
Lemma attach_pattern_entries (c : SubarrayDescription) (p : pattern)
    (maps maps' : gmap Z pyobj * gmap string pyobj) :
  attach_pattern c maps p = Ok maps' ->
  (forall k, maps'.1 !! k
             = if writes_id c k p then Some (value p) else maps.1 !! k)
  /\ (forall t, maps'.2 !! t
                = if writes_type c t p then Some (value p) else maps.2 !! t).
Proof.
  unfold attach_pattern, writes_id, writes_type, touched_types.
  destruct (py_eq_str (command p) "type") eqn:Etype.
  - destruct (matched_tel_types c (arg p)) as [matched|e]; simpl; [|discriminate].
    intros [= <-]. split.
    + intros k. rewrite set_for_type_id, orb_false_r. reflexivity.
    + intros t. apply set_for_type_type.
  - destruct (py_eq_str (command p) "id") eqn:Eid; [|discriminate].
    destruct (py_int (arg p)) as [z|e]; simpl; [|discriminate].
    intros [= <-]. simpl. split.
    + intros k. case_bool_decide as Hk.
      * subst k. apply lookup_insert_eq.
      * apply lookup_insert_ne, Hk.
    + intros t. reflexivity.
Qed.

Lemma last_filter_cons {A : Type} (f : A -> bool) (x : A) (l : list A) :
  last (List.filter f (x :: l))
  = match last (List.filter f l) with
    | Some y => Some y
    | None => if f x then Some x else None
    end.
Proof.
  simpl. destruct (f x); [|destruct (last (List.filter f l)); reflexivity].
  rewrite last_cons. reflexivity.
Qed.

(** The entries after a replay that raised nothing: for each key, the
    value of the last rule that writes it. *)
Lemma attach_loop_entries (c : SubarrayDescription) (params : list pattern)
    (maps maps' : gmap Z pyobj * gmap string pyobj) :
  attach_loop c params maps = (maps', None) ->
  (forall k, maps'.1 !! k
             = match last (List.filter (writes_id c k) params) with
               | Some p => Some (value p)
               | None => maps.1 !! k
               end)
  /\ (forall t, maps'.2 !! t
                = match last (List.filter (writes_type c t) params) with
                  | Some p => Some (value p)
                  | None => maps.2 !! t
                  end).
Proof.
  revert maps. induction params as [|p params IH]; intros maps.
  - simpl. intros [= <-]. split; reflexivity.
  - simpl attach_loop.
    destruct (attach_pattern c maps p) as [maps1|e] eqn:Ep; [|discriminate].
    intros Hloop. destruct (IH _ Hloop) as [Hids Htypes].
    destruct (attach_pattern_entries _ _ _ _ Ep) as [Hid1 Htype1].
    split.
    + intros k. rewrite last_filter_cons, Hids, Hid1.
      destruct (last (List.filter (writes_id c k) params)); [reflexivity|].
      destruct (writes_id c k p); reflexivity.
    + intros t. rewrite last_filter_cons, Htypes, Htype1.
      destruct (last (List.filter (writes_type c t) params)); [reflexivity|].
      destruct (writes_type c t p); reflexivity.
Qed.

(** After an [attach_subarray] that raised nothing, the lookup of a
    telescope id is the value of the last rule of the list that writes this
    id (a ["type"] rule matching a type of the telescope, or an ["id"] rule
    for it); without such a rule it is the KeyError for this id. *)
Theorem getitem_id_last_writer (params : list pattern) (c : SubarrayDescription)
    (bound : t) (tel_id : Z) :
  attach_subarray (__init__ params) c = (bound, None) ->
  __getitem__ bound (PInt tel_id)
  = match last (List.filter (writes_id c tel_id) params) with
    | Some p => Ok (value p)
    | None => Raise (UnresolvedId tel_id)
    end.
Proof.
  unfold attach_subarray. simpl.
  destruct (attach_loop c params (∅, ∅)) as [maps e] eqn:Eloop.
  simpl. intros [= <- ->].
  destruct (attach_loop_entries _ _ _ _ Eloop) as [Hids _].
  unfold __getitem__, value_for_tel_id. simpl. rewrite Hids.
  destruct (last (List.filter (writes_id c tel_id) params)); reflexivity.
Qed.

(** After an [attach_subarray] that raised nothing, the lookup of a type
    name that is no telescope type of the subarray is the "unknown
    telescope type" ValueError; for a telescope type it is the value of the
    last ["type"] rule whose pattern matches it, and the KeyError for this
    type when no rule matches. *)
Theorem getitem_type_last_writer (params : list pattern)
    (c : SubarrayDescription) (bound : t) (tel_type : string) :
  attach_subarray (__init__ params) c = (bound, None) ->
  __getitem__ bound (PStr tel_type)
  = if bool_decide (tel_type ∈ telescope_types c) then
      match last (List.filter (writes_type c tel_type) params) with
      | Some p => Ok (value p)
      | None => Raise (UnresolvedType tel_type)
      end
    else Raise (UnknownType tel_type).
Proof.
  unfold attach_subarray. simpl.
  destruct (attach_loop c params (∅, ∅)) as [maps e] eqn:Eloop.
  simpl. intros [= <- ->].
  destruct (attach_loop_entries _ _ _ _ Eloop) as [_ Htypes].
  unfold __getitem__, value_for_type. simpl.
  destruct (decide (tel_type ∈ telescope_types c)) as [Hin|Hout].
  - rewrite !bool_decide_eq_true_2; [|exact Hin|apply elem_of_list_to_set, Hin].
    rewrite Htypes.
    destruct (last (List.filter (writes_type c tel_type) params)); reflexivity.
  - rewrite !bool_decide_eq_false_2; [reflexivity|exact Hout|].
    rewrite elem_of_list_to_set. exact Hout.
Qed.

Lemma attach_loop_app (c : SubarrayDescription) (first rest : list pattern)
    (maps : gmap Z pyobj * gmap string pyobj) :
  attach_loop c (first ++ rest) maps
  = match attach_loop c first maps with
    | (maps', None) => attach_loop c rest maps'
    | (maps', Some e) => (maps', Some e)
    end.
Proof.
  revert maps. induction first as [|p first IH]; intros maps; simpl;
    [reflexivity|].
  destruct (attach_pattern c maps p); [apply IH|reflexivity].
Qed.

(** A ["type"] rule whose pattern matches no telescope type of the
    subarray is skipped: with or without it, [attach_subarray] builds the
    same two maps and has the same outcome. *)
Theorem unmatched_type_rule_is_skipped (before after : list pattern)
    (p : pattern) (c : SubarrayDescription) :
  py_eq_str (command p) "type" = true ->
  matched_tel_types c (arg p) = Ok [] ->
  let with_rule := attach_subarray (__init__ (before ++ p :: after)) c in
  let without := attach_subarray (__init__ (before ++ after)) c in
  _value_for_tel_id with_rule.1 = _value_for_tel_id without.1
  /\ _value_for_type with_rule.1 = _value_for_type without.1
  /\ with_rule.2 = without.2.
Proof.
  intros Htype Hmatched.
  assert (Hloop : attach_loop c (before ++ p :: after) (∅, ∅)
                  = attach_loop c (before ++ after) (∅, ∅)).
  { rewrite !attach_loop_app.
    destruct (attach_loop c before (∅, ∅)) as [maps [e|]]; [reflexivity|].
    simpl. unfold attach_pattern. rewrite Htype, Hmatched. reflexivity. }
  unfold attach_subarray. simpl. rewrite Hloop. repeat split.
Qed.

Lemma attach_loop_raises (c : SubarrayDescription) (before after : list pattern)
    (p : pattern) (maps : gmap Z pyobj * gmap string pyobj) (e : exn) :
  (attach_loop c before (∅, ∅)).2 = None ->
  attach_pattern c (attach_loop c before (∅, ∅)).1 p = Raise e ->
  attach_loop c (before ++ p :: after) (∅, ∅)
  = ((attach_loop c before (∅, ∅)).1, Some e).
Proof.
  intros Hquiet Hraise. rewrite attach_loop_app.
  destruct (attach_loop c before (∅, ∅)) as [maps' [e'|]]; [discriminate|].
  simpl in *. rewrite Hraise. reflexivity.
Qed.

(** [attach_subarray] stops at the first rule it cannot replay: a rule
    whose command is neither ["type"] nor ["id"] raises the "unrecognized
    command" ValueError, an ["id"] rule on whose argument [int] raises lets
    that exception out; in both cases the two maps hold what the rules
    before it wrote and the rules after it are not replayed. *)
Theorem attach_stops_at_bad_rule (before after : list pattern) (p : pattern)
    (c : SubarrayDescription) (so_far : t) :
  attach_subarray (__init__ before) c = (so_far, None) ->
  (py_eq_str (command p) "type" = false ->
   py_eq_str (command p) "id" = false ->
   exists stopped,
     attach_subarray (__init__ (before ++ p :: after)) c
     = (stopped, Some (ValueError UnrecognizedCommand))
     /\ _value_for_tel_id stopped = _value_for_tel_id so_far
     /\ _value_for_type stopped = _value_for_type so_far)
  /\ (forall e,
         py_eq_str (command p) "type" = false ->
         py_eq_str (command p) "id" = true ->
         py_int (arg p) = Raise e ->
         exists stopped,
           attach_subarray (__init__ (before ++ p :: after)) c
           = (stopped, Some e)
           /\ _value_for_tel_id stopped = _value_for_tel_id so_far
           /\ _value_for_type stopped = _value_for_type so_far).
Proof.
  unfold attach_subarray. simpl. intros [= <- Hquiet].
  split.
  - intros Htype Hid. eexists. split.
    + rewrite (attach_loop_raises c before after p (∅, ∅)
                 (ValueError UnrecognizedCommand) Hquiet); [reflexivity|].
      unfold attach_pattern. rewrite Htype, Hid. reflexivity.
    + split; reflexivity.
  - intros e Htype Hid Hint. eexists. split.
    + rewrite (attach_loop_raises c before after p (∅, ∅) e Hquiet);
        [reflexivity|].
      unfold attach_pattern. rewrite Htype, Hid, Hint. reflexivity.
    + split; reflexivity.
Qed.

(** C1: rules are replayed in list order and a later rule overwrites the
    entry of an earlier one for every id and type it touches, whatever the
    kind of the two rules: after an [attach_subarray] that raised nothing,
    the lookup of an id or of a telescope type is the value of the last rule
    of the list that writes it.  In particular the list
    [[("id", 5, 9.0), ("type", "*", 1.0)]], attached to a subarray in which
    telescope 5 belongs to a known type, gives [lookup[5] = 1.0]. *)
Theorem list_order_precedence :
  (forall (params : list pattern) (c : SubarrayDescription) (bound : t),
      attach_subarray (__init__ params) c = (bound, None) ->
      (forall tel_id,
          __getitem__ bound (PInt tel_id)
          = match last (List.filter (writes_id c tel_id) params) with
            | Some p => Ok (value p)
            | None => Raise (UnresolvedId tel_id)
            end)
      /\ (forall tel_type,
             __getitem__ bound (PStr tel_type)
             = if bool_decide (tel_type ∈ telescope_types c) then
                 match last (List.filter (writes_type c tel_type) params) with
                 | Some p => Ok (value p)
                 | None => Raise (UnresolvedType tel_type)
                 end
               else Raise (UnknownType tel_type)))
  /\ (forall (before : list pattern) (p : pattern) (c : SubarrayDescription)
             (bound : t),
         attach_subarray (__init__ (before ++ [p])) c = (bound, None) ->
         (forall tel_id, touches_id c p tel_id ->
                         __getitem__ bound (PInt tel_id) = Ok (value p))
         /\ (forall tel_type, In tel_type (touched_types c p) ->
                              __getitem__ bound (PStr tel_type) = Ok (value p)))
  /\ (forall (c : SubarrayDescription) (tel_type : string),
         (forall name, fnmatch name "*" = true) ->
         In tel_type (telescope_types c) ->
         In 5 (get_tel_ids_for_type c tel_type) ->
         exists bound,
           attach_subarray
             (__init__ [Pattern (PStr "id") (PInt 5) (PFloat 9);
                        Pattern (PStr "type") (PStr "*") (PFloat 1)]) c
           = (bound, None)
           /\ __getitem__ bound (PInt 5) = Ok (PFloat 1)).
Proof.
  split; [|split; [exact last_rule_wins|]].
  - intros params c bound. unfold attach_subarray. simpl.
    destruct (attach_loop c params (∅, ∅)) as [maps e] eqn:Eloop.
    simpl. intros [= <- ->].
    destruct (attach_loop_entries _ _ _ _ Eloop) as [Hids Htypes].
    split.
    + intros tel_id. unfold __getitem__, value_for_tel_id. simpl.
      rewrite Hids.
      destruct (last (List.filter (writes_id c tel_id) params)); reflexivity.
    + intros tel_type. unfold __getitem__, value_for_type. simpl.
      destruct (decide (tel_type ∈ telescope_types c)) as [Hin|Hout].
      * rewrite !bool_decide_eq_true_2;
          [|exact Hin|apply elem_of_list_to_set, Hin].
        rewrite Htypes.
        destruct (last (List.filter (writes_type c tel_type) params));
          reflexivity.
      * rewrite !bool_decide_eq_false_2; [reflexivity|exact Hout|].
        rewrite elem_of_list_to_set. exact Hout.
  - intros c tel_type Hstar Htype Hid.
    set (first := Pattern (PStr "id") (PInt 5) (PFloat 9)).
    set (second := Pattern (PStr "type") (PStr "*") (PFloat 1)).
    destruct (attach_subarray (__init__ ([first] ++ [second])) c)
      as [bound e] eqn:E.
    assert (He : e = None).
    { revert E. unfold attach_subarray. simpl. unfold attach_pattern. simpl.
      rewrite matched_tel_types_str. simpl. intros [= _ <-]. reflexivity. }
    subst e. exists bound. split; [exact E|].
    destruct (last_rule_wins [first] second c bound E) as [Hids _].
    apply (Hids 5). left. exists tel_type. split; [|exact Hid].
    unfold touched_types. simpl. rewrite matched_tel_types_str.
    apply filter_In. split; [exact Htype|apply Hstar].
Qed.

End Resolution.

(** ** The list that validate builds *)

Section Normalization.
Context `{Builtins}.
Import TelescopeParameter.

Lemma validate_pattern_rule (self : t) (item entry : pyobj) :
  validate_pattern self item = Ok entry ->
  exists p, entry = pattern_to_obj p /\ well_formed p = true.
Proof.
  intros Hv. destruct (validate_pattern_shape _ _ _ Hv) as (c & a & v & -> & Hp).
  exists (Pattern (PStr c) a v). split; [reflexivity|exact Hp].
Qed.

Lemma lookup_of_attach (carried : option SubarrayDescription)
    (rules : list pattern) (c : SubarrayDescription) :
  TelescopeParameterLookup.attach_subarray (lookup_of carried rules) c
  = TelescopeParameterLookup.attach_subarray
      (TelescopeParameterLookup.__init__ rules) c.
Proof. destruct carried; reflexivity. Qed.

(** One iteration of the loop, for an entry that passes the checks. *)
Lemma validate_step_extends (self : t) (carried : option SubarrayDescription)
    (acc : TelescopePatternList.t) (item : pyobj) (p : pattern) :
  Forall (fun q => well_formed q = true) (TelescopePatternList.data acc) ->
  (length (TelescopePatternList.data acc) <= deepcopy_depth)%nat ->
  well_formed p = true ->
  validate_pattern self item = Ok (pattern_to_obj p) ->
  validate_step self carried acc item = Ok (extended carried acc [p]).
Proof.
  intros Hacc Hdepth Hp Hv. unfold validate_step. rewrite Hv.
  rewrite (proj2 (Nat.ltb_ge _ _) Hdepth).
  destruct p as [cmd a v]. unfold pattern_to_obj. simpl.
  assert (Hcmd : exists c, cmd = PStr c).
  { unfold well_formed in Hp. simpl in Hp.
    destruct cmd; try discriminate. eauto. }
  destruct Hcmd as [c ->].
  unfold TelescopePatternList.append.
  rewrite (single_to_pattern_well_formed _ _ _ Hp).
  destruct carried as [subarray|]; [|reflexivity].
  cbn [bind TelescopePatternList.data TelescopePatternList._lookup
       TelescopePatternList._subarray TelescopePatternList.attach_subarray].
  assert (Hquiet :
            (TelescopeParameterLookup.attach_loop subarray
               (TelescopePatternList.data acc ++ [Pattern (PStr c) a v])
               (∅, ∅)).2 = None).
  { apply attach_loop_well_formed, Forall_app. split; [exact Hacc|].
    constructor; [exact Hp|constructor]. }
  rewrite Hquiet. reflexivity.
Qed.

Lemma extended_cons (carried : option SubarrayDescription)
    (acc : TelescopePatternList.t) (p : pattern) (rules : list pattern) :
  extended carried (extended carried acc [p]) rules
  = extended carried acc (p :: rules).
Proof.
  destruct rules as [|q rules]; [reflexivity|].
  unfold extended. simpl. rewrite <- !app_assoc. simpl.
  destruct carried; reflexivity.
Qed.

Lemma extended_data (carried : option SubarrayDescription)
    (acc : TelescopePatternList.t) (rules : list pattern) :
  TelescopePatternList.data (extended carried acc rules)
  = (TelescopePatternList.data acc ++ rules)%list.
Proof.
  destruct rules; simpl; [rewrite app_nil_r|]; reflexivity.
Qed.

(** What an iteration that returns has checked. *)
Lemma validate_step_returns (self : t) (carried : option SubarrayDescription)
    (acc next : TelescopePatternList.t) (item : pyobj) :
  validate_step self carried acc item = Ok next ->
  exists p,
    validate_pattern self item = Ok (pattern_to_obj p)
    /\ well_formed p = true
    /\ (length (TelescopePatternList.data acc) <= deepcopy_depth)%nat.
Proof.
  unfold validate_step.
  destruct (validate_pattern self item) as [entry|] eqn:Ev; [|discriminate].
  destruct (validate_pattern_rule _ _ _ Ev) as (p & -> & Hp).
  destruct (deepcopy_depth <? length (TelescopePatternList.data acc))%nat
    eqn:Ed.
  - simpl. destruct (TelescopePatternList.append acc (pattern_to_obj p));
      discriminate.
  - intros _. exists p. repeat split; [exact Hp|].
    apply Nat.ltb_ge, Ed.
Qed.

(** An iteration on an entry that passes the checks, for a list that
    already has more rules than [copy.deepcopy] can go through. *)
Lemma validate_step_too_deep (self : t) (carried : option SubarrayDescription)
    (acc : TelescopePatternList.t) (item entry : pyobj) :
  validate_pattern self item = Ok entry ->
  (deepcopy_depth < length (TelescopePatternList.data acc))%nat ->
  validate_step self carried acc item = Raise RecursionError.
Proof.
  intros Hv Hdeep. unfold validate_step. rewrite Hv.
  destruct (validate_pattern_shape _ _ _ Hv) as (c & a & v & -> & Hp).
  cbn [bind]. unfold TelescopePatternList.append.
  rewrite (single_to_pattern_well_formed _ _ _ Hp).
  rewrite (proj2 (Nat.ltb_lt _ _) Hdeep). reflexivity.
Qed.

Lemma validate_loop_extends (self : t) (carried : option SubarrayDescription)
    (items : list pyobj) (acc l : TelescopePatternList.t) :
  Forall (fun q => well_formed q = true) (TelescopePatternList.data acc) ->
  validate_loop self carried acc items = Ok l <->
  exists rules,
    Forall2 (fun item p => validate_pattern self item = Ok (pattern_to_obj p))
      items rules
    /\ (rules = []
        \/ (length (TelescopePatternList.data acc) + length rules
            <= S deepcopy_depth)%nat)
    /\ l = extended carried acc rules.
Proof.
  revert acc. induction items as [|item items IH]; intros acc Hacc; simpl.
  - split.
    + intros [= <-]. exists []. repeat split; [constructor|left; reflexivity].
    + intros (rules & Hall & _ & ->). inversion Hall. reflexivity.
  - split.
    + destruct (validate_step self carried acc item) as [next|] eqn:Es; simpl;
        [|discriminate].
      intros Hloop.
      destruct (validate_step_returns _ _ _ _ _ Es) as (p & Hv & Hp & Hdepth).
      rewrite (validate_step_extends _ _ _ _ _ Hacc Hdepth Hp Hv) in Es.
      injection Es as <-.
      apply IH in Hloop as (rules & Hall & Hlen & ->).
      * exists (p :: rules). split; [constructor; assumption|]. split.
        -- right. destruct Hlen as [-> | Hlen]; simpl; [lia|].
           simpl in Hlen. rewrite length_app in Hlen. simpl in Hlen. lia.
        -- apply extended_cons.
      * simpl. apply Forall_app. split; [exact Hacc|].
        constructor; [exact Hp|constructor].
    + intros (rules & Hall & Hlen & ->).
      inversion Hall as [|item' p items' rules' Hv Hrest]; subst.
      destruct Hlen as [Hnil | Hlen]; [discriminate|]. simpl in Hlen.
      destruct (validate_pattern_rule _ _ _ Hv) as (p' & Heq & Hp).
      assert (p' = p) as ->.
      { destruct p, p'. unfold pattern_to_obj in Heq. simpl in Heq.
        congruence. }
      rewrite (validate_step_extends _ _ _ _ _ Hacc ltac:(lia) Hp Hv). simpl.
      apply IH.
      * simpl. apply Forall_app. split; [exact Hacc|].
        constructor; [exact Hp|constructor].
      * exists rules'. split; [exact Hrest|]. split.
        -- right. simpl. rewrite length_app. simpl. lia.
        -- symmetry. apply extended_cons.
Qed.


Lemma validate_shape (self : t) (raw : assigned) (l : TelescopePatternList.t) :
  validate self raw = Ok l ->
  exists raw' rules,
    as_list self raw = Ok raw'
    /\ Forall2 (fun item p => validate_pattern self item = Ok (pattern_to_obj p))
         (entries raw') rules
    /\ Forall (fun p => well_formed p = true) rules
    /\ (length rules <= S deepcopy_depth)%nat
    /\ l = extended (subarray_of raw') TelescopePatternList.new rules.
Proof.
  unfold validate.
  destruct (as_list self raw) as [raw'|]; simpl; [|discriminate].
  intros Hloop.
  apply validate_loop_extends in Hloop as (rules & Hall & Hlen & ->);
    [|constructor].
  exists raw', rules. repeat split; try assumption.
  - clear -Hall. induction Hall as [|item p items rules Hv _ IH]; constructor;
      [|exact IH].
    destruct (validate_pattern_rule _ _ _ Hv) as (p' & Heq & Hp).
    destruct p, p'. unfold pattern_to_obj in Heq. simpl in Heq.
    injection Heq as -> -> ->. exact Hp.
  - destruct Hlen as [-> | Hlen]; simpl in *; lia.
Qed.

(** Attaching a subarray to a list that [validate] returned: with at
    least one rule the call raises nothing and leaves the lookup of a fresh
    attachment of these rules; with no rule there is no lookup, and the
    call records the subarray and raises AttributeError. *)
Theorem attach_after_validate (self : t) (raw : assigned)
    (l : TelescopePatternList.t) (c : SubarrayDescription) :
  validate self raw = Ok l ->
  (TelescopePatternList.data l <> [] ->
   TelescopePatternList.attach_subarray l c
   = ({| TelescopePatternList.data := TelescopePatternList.data l;
         TelescopePatternList._lookup :=
           Some (TelescopeParameterLookup.attach_subarray
                   (TelescopeParameterLookup.__init__
                      (TelescopePatternList.data l)) c).1;
         TelescopePatternList._subarray := Some c |}, None))
  /\ (TelescopePatternList.data l = [] ->
      TelescopePatternList.attach_subarray l c
      = ({| TelescopePatternList.data := [];
            TelescopePatternList._lookup := None;
            TelescopePatternList._subarray := Some c |},
         Some AttributeError)).
Proof.
  intros Hv.
  destruct (validate_shape _ _ _ Hv) as (raw' & rules & _ & _ & Hwf & _ & ->).
  destruct rules as [|p rules].
  - split; [intros Hne; destruct (Hne eq_refl)|intros _; reflexivity].
  - split; [intros _|discriminate].
    unfold extended, TelescopePatternList.attach_subarray.
    change (TelescopePatternList.data TelescopePatternList.new ++ p :: rules)%list
      with (p :: rules).
    cbn [TelescopePatternList._lookup TelescopePatternList.data].
    rewrite lookup_of_attach.
    assert (Hquiet :
              (TelescopeParameterLookup.attach_subarray
                 (TelescopeParameterLookup.__init__ (p :: rules)) c).2 = None).
    { unfold TelescopeParameterLookup.attach_subarray.
      apply attach_loop_well_formed, Hwf. }
    cbv zeta. rewrite Hquiet. reflexivity.
Qed.

Lemma validate_pattern_output (self : t) (item : pyobj) (p : pattern) :
  validate_pattern self item = Ok (pattern_to_obj p) ->
  well_formed p = true /\ exists v, _validate_entry self v = Ok (value p).
Proof.
  intros Hv. split.
  - destruct (validate_pattern_rule _ _ _ Hv) as (p' & Heq & Hp).
    destruct p, p'. unfold pattern_to_obj in Heq. simpl in Heq.
    injection Heq as -> -> ->. exact Hp.
  - revert Hv. unfold validate_pattern.
    destruct (py_len item) as [n|]; simpl; [|discriminate].
    destruct (negb (n =? 3)%nat); [discriminate|].
    destruct (py_unpack3 item) as [[[c a] v]|]; simpl; [|discriminate].
    destruct (_validate_entry self v) as [v1|]; simpl; [|discriminate].
    destruct c as [| | | |c| |]; try discriminate.
    destruct (negb (bool_decide (c ∈ ["type"; "id"]))); [discriminate|].
    destruct (if bool_decide (c = "type") then _ else _) as [a1|]; simpl;
      [|discriminate].
    destruct (if bool_decide (c = "id") then _ else _) as [a2|]; simpl;
      [|discriminate].
    destruct (_validate_entry self v1) as [v2|] eqn:E2; simpl; [|discriminate].
    destruct p. unfold pattern_to_obj. simpl. intros [= _ _ <-]. eauto.
Qed.

Lemma validate_pattern_fixed (self : t) (p : pattern) :
  well_formed p = true ->
  _validate_entry self (value p) = Ok (value p) ->
  validate_pattern self (pattern_to_obj p) = Ok (pattern_to_obj p).
Proof.
  destruct p as [cmd a v]. unfold well_formed, pattern_to_obj. simpl.
  intros Hp Hv. unfold validate_pattern. simpl. rewrite Hv. simpl.
  destruct cmd as [| | | |c| |]; try discriminate.
  destruct a as [| |z| |pat| |]; try discriminate;
    apply bool_decide_eq_true in Hp; subst c; simpl; rewrite Hv; reflexivity.
Qed.

(** [validate] is idempotent when the inner trait is: a list it
    returned, assigned again as it is, validates to itself, with the same
    rules, the same lookup and the same subarray. *)
Theorem validate_idempotent (self : t) (raw : assigned)
    (l : TelescopePatternList.t) :
  (forall v v', _validate_entry self v = Ok v' ->
                _validate_entry self v' = Ok v') ->
  validate self raw = Ok l ->
  validate self (Patterns l) = Ok l.
Proof.
  intros Hidem Hv.
  destruct (validate_shape _ _ _ Hv)
    as (raw' & rules & _ & Hall & _ & Hlen & ->).
  destruct rules as [|p rules]; [reflexivity|].
  set (carried := subarray_of raw') in *.
  unfold validate. cbn [as_list bind].
  apply validate_loop_extends; [constructor|].
  exists (p :: rules). split; [|split].
  - change (entries (Patterns (extended carried TelescopePatternList.new
                                 (p :: rules))))
      with (map pattern_to_obj (p :: rules)).
    clear -Hall Hidem.
    induction Hall as [|item q items qs Hq _ IH]; simpl; constructor;
      [|exact IH].
    destruct (validate_pattern_output _ _ _ Hq) as (Hwf & v & Hval).
    apply validate_pattern_fixed; [exact Hwf|]. eapply Hidem, Hval.
  - right. exact Hlen.
  - unfold extended. simpl. destruct carried; reflexivity.
Qed.

Lemma validate_loop_app (self : t) (carried : option SubarrayDescription)
    (first rest : list pyobj) (acc : TelescopePatternList.t) :
  validate_loop self carried acc (first ++ rest)
  = (middle <- validate_loop self carried acc first;;
     validate_loop self carried middle rest).
Proof.
  revert acc. induction first as [|item first IH]; intros acc; simpl;
    [reflexivity|].
  destruct (validate_step self carried acc item); simpl; [apply IH|reflexivity].
Qed.

Lemma passing_entries_rules (self : t) (good : list pyobj) :
  Forall (fun item => exists entry, validate_pattern self item = Ok entry) good ->
  exists rules,
    Forall2 (fun item p => validate_pattern self item = Ok (pattern_to_obj p))
      good rules.
Proof.
  induction 1 as [|item good [entry Hentry] _ [rules IH]].
  - exists []. constructor.
  - destruct (validate_pattern_rule _ _ _ Hentry) as (p & -> & _).
    exists (p :: rules). constructor; assumption.
Qed.


(** A list that starts with [deepcopy_depth + 2] entries that pass the
    checks cannot be validated: the lookup built after the last of them
    would have more nested copies than [copy.deepcopy] goes through, and
    [validate] raises RecursionError, whatever follows. *)
Theorem validate_deep_list_raises (self : t) (good rest : list pyobj) :
  Forall (fun item => exists entry, validate_pattern self item = Ok entry) good ->
  length good = S (S deepcopy_depth) ->
  validate self (Plain (PList (good ++ rest))) = Raise RecursionError.
Proof.
  intros Hgood Hlen.
  destruct (exists_last (l := good)) as (front & final & ->);
    [intros ->; discriminate|].
  rewrite length_app in Hlen. simpl in Hlen.
  apply Forall_app in Hgood as [Hfront Hfinal].
  inversion Hfinal as [|? ? [entry Hentry] _]; subst.
  destruct (passing_entries_rules _ _ Hfront) as [rules Hrules].
  pose proof (Forall2_length _ _ _ Hrules) as Hsame.
  assert (Hloop : validate_loop self None TelescopePatternList.new front
                  = Ok (extended None TelescopePatternList.new rules)).
  { apply validate_loop_extends; [constructor|].
    exists rules. repeat split; [exact Hrules|]. right. simpl. lia. }
  unfold validate. simpl. rewrite <- app_assoc, validate_loop_app, Hloop.
  simpl.
  rewrite (validate_step_too_deep _ _ _ _ _ Hentry); [reflexivity|].
  rewrite extended_data. simpl. lia.
Qed.

End Normalization.

(** ** A single value, looked up by type *)

Section ScalarByType.
Context `{Builtins}.
Import TelescopeParameter.

(** A single value [v] that the inner trait accepts as it is, validated
    and attached to a subarray, is the lookup of every telescope type of the
    subarray; any other type name is the "unknown telescope type"
    ValueError. *)
Theorem scalar_type_lookup (self : t) (v : pyobj) (c : SubarrayDescription) :
  (forall name, fnmatch name "*" = true) ->
  is_list (Plain v) = false ->
  _validate_entry self v = Ok v ->
  exists l bound lookup,
    validate self (Plain v) = Ok l
    /\ TelescopePatternList.attach_subarray l c = (bound, None)
    /\ TelescopePatternList.tel bound = Ok lookup
    /\ forall tel_type,
         TelescopeParameterLookup.__getitem__ lookup (PStr tel_type)
         = if bool_decide (tel_type ∈ telescope_types c) then Ok v
           else Raise (UnknownType tel_type).
Proof.
  intros Hstar Hlist Hv.
  set (rule := Pattern (PStr "type") (PStr "*") v).
  destruct (TelescopeParameterLookup.attach_subarray
              (TelescopeParameterLookup.__init__ [rule]) c)
    as [lookup e] eqn:Hattach.
  assert (He : e = None).
  { revert Hattach. unfold TelescopeParameterLookup.attach_subarray. simpl.
    unfold TelescopeParameterLookup.attach_pattern. simpl.
    rewrite matched_tel_types_str. simpl. intros [= _ <-]. reflexivity. }
  subst e.
  exists {| TelescopePatternList.data := [rule];
            TelescopePatternList._lookup :=
              Some (TelescopeParameterLookup.__init__ [rule]);
            TelescopePatternList._subarray := None |},
         {| TelescopePatternList.data := [rule];
            TelescopePatternList._lookup := Some lookup;
            TelescopePatternList._subarray := Some c |},
         lookup.
  split; [apply validate_scalar; assumption|].
  split.
  { unfold TelescopePatternList.attach_subarray.
    cbn [TelescopePatternList._lookup TelescopePatternList.data].
    rewrite Hattach. reflexivity. }
  split; [reflexivity|].
  intros tel_type. case_bool_decide as Hin.
  - destruct (last_rule_wins [] rule c lookup Hattach) as [_ Htypes].
    apply (Htypes tel_type).
    unfold touched_types. simpl. rewrite matched_tel_types_str.
    apply filter_In. split; [apply list_elem_of_In, Hin|apply Hstar].
  - replace lookup with
      (TelescopeParameterLookup.attach_subarray
         (TelescopeParameterLookup.__init__ [rule]) c).1
      by (rewrite Hattach; reflexivity).
    unfold TelescopeParameterLookup.__getitem__,
      TelescopeParameterLookup.value_for_type. simpl.
    rewrite bool_decide_eq_false_2; [reflexivity|].
    rewrite elem_of_list_to_set. exact Hin.
Qed.

End ScalarByType.

(** ** Lists built directly *)

Section PatternListProperties.
Context `{Builtins}.
Import TelescopePatternList.

Lemma single_to_pattern_command (x : pyobj) (p : pattern) :
  single_to_pattern x = Ok p ->
  py_eq_str (command p) "type" || py_eq_str (command p) "id" = true.
Proof.
  unfold single_to_pattern.
  destruct x as [| | | | |items|]; try (intros [= <-]; reflexivity).
  destruct items as [|c [|a [|v [|]]]]; try (intros [= <-]; reflexivity).
  destruct (hashable c); [|discriminate].
  destruct (py_eq_str c "type" || py_eq_str c "id") eqn:E;
    intros [= <-]; [exact E|reflexivity].
Qed.

Lemma single_to_pattern_raises (x : pyobj) (e : exn) :
  single_to_pattern x = Raise e ->
  e = TypeError
  /\ exists c a v, x = PTuple [c; a; v] /\ hashable c = false.
Proof.
  unfold single_to_pattern.
  destruct x as [| | | | |items|]; try discriminate.
  destruct items as [|c [|a [|v [|]]]]; try discriminate.
  destruct (hashable c) eqn:Eh.
  - destruct (py_eq_str c "type" || py_eq_str c "id"); discriminate.
  - intros [= <-]. split; [reflexivity|]. eauto.
Qed.

Lemma to_patterns_ok (items : list pyobj) (ps : list pattern) :
  to_patterns items = Ok ps ->
  length ps = length items
  /\ Forall (fun p => py_eq_str (command p) "type"
                      || py_eq_str (command p) "id" = true) ps.
Proof.
  revert ps. induction items as [|x items IH]; intros ps; simpl.
  - intros [= <-]. split; [reflexivity|constructor].
  - destruct (single_to_pattern x) as [p|] eqn:Ex; simpl; [|discriminate].
    destruct (to_patterns items) as [qs|]; simpl; [|discriminate].
    intros [= <-]. destruct (IH qs eq_refl) as [Hlen Hall]. split.
    + simpl. rewrite Hlen. reflexivity.
    + constructor; [eapply single_to_pattern_command, Ex|exact Hall].
Qed.

Lemma to_patterns_raises (items : list pyobj) (e : exn) :
  to_patterns items = Raise e ->
  e = TypeError
  /\ exists c a v, In (PTuple [c; a; v]) items /\ hashable c = false.
Proof.
  induction items as [|x items IH]; simpl; [discriminate|].
  destruct (single_to_pattern x) as [p|e'] eqn:Ex; simpl.
  - destruct (to_patterns items) as [qs|e']; simpl; [discriminate|].
    intros [= <-]. destruct (IH eq_refl) as (-> & c & a & v & Hin & Hh).
    split; [reflexivity|]. exists c, a, v. auto.
  - intros [= <-].
    destruct (single_to_pattern_raises _ _ Ex) as (-> & c & a & v & -> & Hh).
    split; [reflexivity|]. exists c, a, v. auto.
Qed.

(** A [TelescopePatternList] built from a list of items has one rule per
    item, each with the command ["type"] or ["id"], and no lookup: its [tel]
    raises RuntimeError, and [attach_subarray] records the subarray and
    raises AttributeError.  The constructor itself fails only with
    TypeError, on a 3-tuple whose first item cannot be hashed. *)
Theorem constructed_list_has_no_lookup (items : list pyobj) :
  (forall l c,
      __init__ items = Ok l ->
      length (data l) = length items
      /\ Forall (fun p => py_eq_str (command p) "type"
                          || py_eq_str (command p) "id" = true) (data l)
      /\ tel l = Raise RuntimeError
      /\ attach_subarray l c
         = ({| data := data l; _lookup := None; _subarray := Some c |},
            Some AttributeError))
  /\ (forall e,
         __init__ items = Raise e ->
         e = TypeError
         /\ exists c a v, In (PTuple [c; a; v]) items /\ hashable c = false).
Proof.
  unfold __init__. split.
  - intros l c. destruct (to_patterns items) as [ps|] eqn:E; simpl;
      [|discriminate].
    intros [= <-]. destruct (to_patterns_ok _ _ E) as [Hlen Hall].
    repeat split; assumption.
  - intros e. destruct (to_patterns items) as [ps|e'] eqn:E; simpl;
      [discriminate|].
    intros [= <-]. apply to_patterns_raises, E.
Qed.

End PatternListProperties.

(** ** More on Path *)

Section PathResults.
Context `{Path.System}.
Import Path.

Lemma check_constraints_satisfied (self : t) (resolved : string)
    (r : path_value) :
  check_constraints self resolved = Ok r ->
  violated self (absolute resolved) = false.
Proof.
  unfold check_constraints, violated.
  destruct (must_exist self) as [[|]|], (path_exists (absolute resolved)),
    (directory_ok self), (file_ok self), (is_dir (absolute resolved)),
    (is_file (absolute resolved)); simpl; first [discriminate|reflexivity].
Qed.

Lemma validate_str_returns (self : t) (text : string) (r : path_value) :
  validate_str self text = Ok r ->
  exists resolved,
    r = VPath (absolute resolved) /\ violated self (absolute resolved) = false.
Proof.
  unfold validate_str.
  destruct (bool_decide (text = "")); [discriminate|].
  destruct (urlparse text) as [url|]; [|discriminate].
  destruct (resolve text url) as [resolved|]; simpl; [|discriminate].
  intros Hcheck. exists resolved. split.
  - exact (check_constraints_returns _ _ _ Hcheck).
  - exact (check_constraints_satisfied _ _ _ Hcheck).
Qed.

(** Whatever [validate] returns is either the [None] or [Undefined] it
    was given, and then [allow_none] is set, or an absolute path that
    agrees with the constraints of the trait. *)
Theorem validate_returns_valid_path (self : t) (value r : path_value) :
  validate self value = Ok r ->
  (allow_none self = true /\ (value = VNone \/ value = VUndefined) /\ r = value)
  \/ (exists resolved,
         r = VPath (absolute resolved)
         /\ violated self (absolute resolved) = false).
Proof.
  destruct value as [| |b|s|p|o].
  - unfold validate. simpl.
    destruct (allow_none self); [|discriminate]. intros [= <-]. left. auto.
  - unfold validate. simpl.
    destruct (allow_none self); [|discriminate]. intros [= <-]. left. auto.
  - intros Hv. right. exact (validate_str_returns self (expandvars (fsdecode b)) r Hv).
  - intros Hv. right. exact (validate_str_returns self (expandvars s) r Hv).
  - intros Hv. right. exact (validate_str_returns self (expandvars p) r Hv).
  - unfold validate. simpl. discriminate.
Qed.

(** Before any check on the file system: a text that [urlparse] refuses
    is rejected by [self.error]; with the scheme [http] or [https] the
    path is what [download_cached] returns for the whole text, and an
    exception of [download_cached] or, with the scheme [dataset], of
    [get_dataset_path] leaves [validate] as it is. *)
Theorem validate_delegates (self : t) (s : string) :
  expandvars s <> "" ->
  (urlparse (expandvars s) = None ->
   validate self (VStr s) = Raise (TraitError InvalidValue))
  /\ (forall url,
         urlparse (expandvars s) = Some url ->
         scheme url = "http" \/ scheme url = "https" ->
         validate self (VStr s)
         = (resolved <- download_cached (expandvars s);;
            check_constraints self resolved))
  /\ (forall url e,
         urlparse (expandvars s) = Some url ->
         scheme url = "http" \/ scheme url = "https" ->
         download_cached (expandvars s) = Raise e ->
         validate self (VStr s) = Raise e)
  /\ (forall url e,
         urlparse (expandvars s) = Some url ->
         scheme url = "dataset" ->
         get_dataset_path (partition_tail "dataset://" (expandvars s)) = Raise e ->
         validate self (VStr s) = Raise e).
Proof.
  intros Hne. repeat apply conj.
  - intros Hurl.
    change (validate self (VStr s)) with (validate_str self (expandvars s)).
    unfold validate_str. rewrite bool_decide_eq_false_2 by exact Hne.
    rewrite Hurl. reflexivity.
  - intros url Hurl Hscheme. rewrite (validate_text _ _ _ Hne Hurl).
    unfold resolve. destruct Hscheme as [-> | ->]; reflexivity.
  - intros url e Hurl Hscheme Hraise. rewrite (validate_text _ _ _ Hne Hurl).
    unfold resolve. destruct Hscheme as [-> | ->]; simpl; rewrite Hraise;
      reflexivity.
  - intros url e Hurl Hscheme Hraise. rewrite (validate_text _ _ _ Hne Hurl).
    unfold resolve. rewrite Hscheme. simpl.
    change (bind (get_dataset_path (partition_tail "dataset://" (expandvars s)))
              (check_constraints self) = Raise e).
    rewrite Hraise. reflexivity.
Qed.

Lemma partition_tail_absent (sep s : string) :
  occurs sep s = false -> partition_tail sep s = "".
Proof.
  induction s as [|a s IH]; simpl.
  - destruct (strip_prefix sep ""); [discriminate|reflexivity].
  - destruct (strip_prefix sep (String a s)); [discriminate|exact IH].
Qed.

(** With the scheme [dataset] and a text in which [dataset://] does not
    occur, as in [dataset:name], the name handed to [get_dataset_path] is the
    empty string. *)
Theorem dataset_without_marker (self : t) (s : string) (url : ParseResult) :
  expandvars s <> "" ->
  urlparse (expandvars s) = Some url ->
  scheme url = "dataset" ->
  occurs "dataset://" (expandvars s) = false ->
  validate self (VStr s)
  = (resolved <- get_dataset_path "";; check_constraints self resolved).
Proof.
  intros Hne Hurl Hscheme Habsent. rewrite (validate_text _ _ _ Hne Hurl).
  unfold resolve. rewrite Hscheme. simpl.
  change (bind (get_dataset_path (partition_tail "dataset://" (expandvars s)))
            (check_constraints self)
          = bind (get_dataset_path "") (check_constraints self)).
  rewrite (partition_tail_absent _ _ Habsent). reflexivity.
Qed.

End PathResults.

(** ** Properties of ComponentName *)

Section ComponentNameProperties.
Import ComponentName.

(** [validate] returns the value it was given, and accepts it exactly
    when it is a name registered at the time of the call, or [None] with
    [allow_none]; every other value is rejected by [self.error].
    Registering more names never turns an accepted value into a rejected
    one, and a rejected name is accepted once it is registered. *)
Theorem validate_follows_registry (self : t) (registry : list string)
    (value : option string) :
  (forall r, validate self registry value = Ok r <->
             r = value
             /\ match value with
                | Some name => name ∈ registry
                | None => allow_none self = true
                end)
  /\ (match value with
      | Some name => name ∉ registry
      | None => allow_none self = false
      end ->
      validate self registry value = Raise (TraitError InvalidValue))
  /\ (forall more r, validate self registry value = Ok r ->
                     validate self (more ++ registry) value = Ok r)
  /\ (forall name, validate self (name :: registry) (Some name) = Ok (Some name)).
Proof.
  repeat apply conj.
  - intros r. unfold validate. destruct value as [name|]; split.
    + case_bool_decide as Hin; [|discriminate]. intros [= <-]. auto.
    + intros [-> Hin]. rewrite bool_decide_eq_true_2 by exact Hin. reflexivity.
    + destruct (allow_none self); [|discriminate]. intros [= <-]. auto.
    + intros [-> ->]. reflexivity.
  - unfold validate. destruct value as [name|].
    + intros Hout. rewrite bool_decide_eq_false_2 by exact Hout. reflexivity.
    + intros ->. reflexivity.
  - intros more r. unfold validate. destruct value as [name|]; [|auto].
    case_bool_decide as Hin; [|discriminate]. intros [= <-].
    rewrite bool_decide_eq_true_2; [reflexivity|].
    apply elem_of_app. right. exact Hin.
  - intros name. unfold validate.
    rewrite bool_decide_eq_true_2; [reflexivity|left].
Qed.

End ComponentNameProperties.

(** ** More closed instances *)

Section MoreExamples.
#[local] Existing Instance python.

Lemma getitem_id_last_writer_witness :
  let params := [Pattern (PStr "type") (PStr "*") (PFloat 5);
                 Pattern (PStr "type") (PStr "LST_*") (PFloat 2);
                 Pattern (PStr "id") (PInt 6) (PFloat 4);
                 Pattern (PStr "id") (PInt 99) (PFloat 7)] in
  let bound :=
    (TelescopeParameterLookup.attach_subarray
       (TelescopeParameterLookup.__init__ params) example_subarray).1 in
  TelescopeParameterLookup.__getitem__ bound (PInt 1) = Ok (PFloat 2)
  /\ TelescopeParameterLookup.__getitem__ bound (PInt 6) = Ok (PFloat 4)
  /\ TelescopeParameterLookup.__getitem__ bound (PInt 99) = Ok (PFloat 7)
  /\ TelescopeParameterLookup.__getitem__ bound (PInt 42)
     = Raise (UnresolvedId 42).
Proof.
  intros params bound.
  split; [|split; [|split]];
    rewrite (getitem_id_last_writer params example_subarray bound _ eq_refl);
    reflexivity.
Defined.

Lemma getitem_type_last_writer_witness :
  let params := [Pattern (PStr "type") (PStr "LST_*") (PFloat 2);
                 Pattern (PStr "type") (PStr "LST_LST_LSTCam") (PFloat 3)] in
  let bound :=
    (TelescopeParameterLookup.attach_subarray
       (TelescopeParameterLookup.__init__ params) example_subarray).1 in
  TelescopeParameterLookup.__getitem__ bound (PStr "LST_LST_LSTCam")
  = Ok (PFloat 3)
  /\ TelescopeParameterLookup.__getitem__ bound (PStr "MST_MST_FlashCam")
     = Raise (UnresolvedType "MST_MST_FlashCam")
  /\ TelescopeParameterLookup.__getitem__ bound (PStr "SST_ASTRI_CHEC")
     = Raise (UnknownType "SST_ASTRI_CHEC").
Proof.
  intros params bound.
  split; [|split];
    rewrite (getitem_type_last_writer params example_subarray bound _ eq_refl);
    reflexivity.
Defined.

Lemma unmatched_type_rule_is_skipped_witness :
  let before := [Pattern (PStr "type") (PStr "*") (PFloat 5)] in
  let after := [Pattern (PStr "id") (PInt 6) (PFloat 4)] in
  let p := Pattern (PStr "type") (PStr "SST_*") (PFloat 9) in
  let with_rule :=
    TelescopeParameterLookup.attach_subarray
      (TelescopeParameterLookup.__init__ (before ++ p :: after))
      example_subarray in
  let without :=
    TelescopeParameterLookup.attach_subarray
      (TelescopeParameterLookup.__init__ (before ++ after)) example_subarray in
  TelescopeParameterLookup._value_for_tel_id with_rule.1
  = TelescopeParameterLookup._value_for_tel_id without.1
  /\ TelescopeParameterLookup._value_for_type with_rule.1
     = TelescopeParameterLookup._value_for_type without.1
  /\ with_rule.2 = without.2.
Proof.
  apply (unmatched_type_rule_is_skipped
           [Pattern (PStr "type") (PStr "*") (PFloat 5)]
           [Pattern (PStr "id") (PInt 6) (PFloat 4)]
           (Pattern (PStr "type") (PStr "SST_*") (PFloat 9)) example_subarray);
    reflexivity.
Defined.

Lemma attach_stops_at_bad_rule_witness :
  let before := [Pattern (PStr "type") (PStr "*") (PFloat 5)] in
  let after := [Pattern (PStr "id") (PInt 6) (PFloat 4)] in
  let so_far :=
    (TelescopeParameterLookup.attach_subarray
       (TelescopeParameterLookup.__init__ before) example_subarray).1 in
  (exists stopped,
      TelescopeParameterLookup.attach_subarray
        (TelescopeParameterLookup.__init__
           (before ++ Pattern (PStr "name") (PStr "LST") (PFloat 1) :: after))
        example_subarray
      = (stopped, Some (ValueError UnrecognizedCommand))
      /\ TelescopeParameterLookup._value_for_tel_id stopped
         = TelescopeParameterLookup._value_for_tel_id so_far
      /\ TelescopeParameterLookup._value_for_type stopped
         = TelescopeParameterLookup._value_for_type so_far)
  /\ (exists stopped,
         TelescopeParameterLookup.attach_subarray
           (TelescopeParameterLookup.__init__
              (before ++ Pattern (PStr "id") PNone (PFloat 1) :: after))
           example_subarray
         = (stopped, Some TypeError)
         /\ TelescopeParameterLookup._value_for_tel_id stopped
            = TelescopeParameterLookup._value_for_tel_id so_far
         /\ TelescopeParameterLookup._value_for_type stopped
            = TelescopeParameterLookup._value_for_type so_far).
Proof.
  intros before after so_far. split.
  - destruct (attach_stops_at_bad_rule before after
                (Pattern (PStr "name") (PStr "LST") (PFloat 1)) example_subarray
                so_far eq_refl) as [Hunknown _].
    apply Hunknown; reflexivity.
  - destruct (attach_stops_at_bad_rule before after
                (Pattern (PStr "id") PNone (PFloat 1)) example_subarray
                so_far eq_refl) as [_ Hint].
    apply Hint; reflexivity.
Defined.


Lemma attach_after_validate_witness :
  TelescopePatternList.attach_subarray
    {| TelescopePatternList.data :=
         [Pattern (PStr "type") (PStr "*") (PFloat 5)];
       TelescopePatternList._lookup :=
         Some (TelescopeParameterLookup.__init__
                 [Pattern (PStr "type") (PStr "*") (PFloat 5)]);
       TelescopePatternList._subarray := None |} example_subarray
  = ({| TelescopePatternList.data :=
          [Pattern (PStr "type") (PStr "*") (PFloat 5)];
        TelescopePatternList._lookup :=
          Some (TelescopeParameterLookup.attach_subarray
                  (TelescopeParameterLookup.__init__
                     [Pattern (PStr "type") (PStr "*") (PFloat 5)])
                  example_subarray).1;
        TelescopePatternList._subarray := Some example_subarray |}, None)
  /\ TelescopePatternList.attach_subarray TelescopePatternList.new
       example_subarray
     = ({| TelescopePatternList.data := [];
           TelescopePatternList._lookup := None;
           TelescopePatternList._subarray := Some example_subarray |},
        Some AttributeError).
Proof.
  split.
  - destruct (attach_after_validate FloatTelescopeParameter (Plain (PFloat 5))
                _ example_subarray eq_refl) as [Hsome _].
    apply Hsome. discriminate.
  - destruct (attach_after_validate FloatTelescopeParameter (Plain (PList []))
                _ example_subarray eq_refl) as [_ Hnone].
    apply Hnone. reflexivity.
Defined.

Lemma Float_validate_idempotent (v v' : pyobj) :
  TelescopeParameter._validate_entry FloatTelescopeParameter v = Ok v' ->
  TelescopeParameter._validate_entry FloatTelescopeParameter v' = Ok v'.
Proof. destruct v; simpl; try discriminate; intros [= <-]; reflexivity. Qed.

Lemma validate_idempotent_witness :
  let l :=
    {| TelescopePatternList.data :=
         [Pattern (PStr "type") (PStr "*") (PFloat 5);
          Pattern (PStr "id") (PInt 6) (PFloat 4)];
       TelescopePatternList._lookup :=
         Some (TelescopeParameterLookup.__init__
                 [Pattern (PStr "type") (PStr "*") (PFloat 5);
                  Pattern (PStr "id") (PInt 6) (PFloat 4)]);
       TelescopePatternList._subarray := None |} in
  TelescopeParameter.validate FloatTelescopeParameter (Patterns l) = Ok l.
Proof.
  apply (validate_idempotent FloatTelescopeParameter
           (Plain (PList [PTuple [PStr "type"; PStr "*"; PInt 5];
                          PTuple [PStr "id"; PStr "6"; PFloat 4]]))).
  - exact Float_validate_idempotent.
  - reflexivity.
Defined.


Lemma set_rebinds_nonempty_witness :
  let old :=
    {| TelescopePatternList.data :=
         [Pattern (PStr "type") (PStr "*") (PFloat 4)];
       TelescopePatternList._lookup :=
         Some (TelescopeParameterLookup.attach_subarray
                 (TelescopeParameterLookup.__init__
                    [Pattern (PStr "type") (PStr "*") (PFloat 4)])
                 example_subarray).1;
       TelescopePatternList._subarray := Some example_subarray |} in
  let rules := [Pattern (PStr "type") (PStr "*") (PFloat 3)] in
  exists stored lookup,
    TelescopeParameter.set FloatTelescopeParameter (Some old) (Plain (PFloat 3))
    = (Some stored, None)
    /\ TelescopePatternList.data stored = rules
    /\ TelescopePatternList._subarray stored = Some example_subarray
    /\ TelescopePatternList.tel stored = Ok lookup
    /\ lookup
       = (TelescopeParameterLookup.attach_subarray
            (TelescopeParameterLookup.__init__ rules) example_subarray).1
    /\ (forall key, TelescopeParameterLookup.__getitem__ lookup key
                    <> Raise NotBound).
Proof.
  intros old rules.
  apply (set_rebinds_nonempty FloatTelescopeParameter old
           {| TelescopePatternList.data := rules;
              TelescopePatternList._lookup :=
                Some (TelescopeParameterLookup.__init__ rules);
              TelescopePatternList._subarray := None |}
           example_subarray (Plain (PFloat 3))
           (Plain (PList [PTuple [PStr "type"; PStr "*"; PFloat 3]])));
    [reflexivity|reflexivity|reflexivity|discriminate].
Defined.

Lemma scalar_type_lookup_witness :
  exists l bound lookup,
    TelescopeParameter.validate FloatTelescopeParameter (Plain (PFloat 4))
    = Ok l
    /\ TelescopePatternList.attach_subarray l example_subarray = (bound, None)
    /\ TelescopePatternList.tel bound = Ok lookup
    /\ forall tel_type,
         TelescopeParameterLookup.__getitem__ lookup (PStr tel_type)
         = if bool_decide (tel_type ∈ telescope_types example_subarray)
           then Ok (PFloat 4) else Raise (UnknownType tel_type).
Proof.
  apply (scalar_type_lookup FloatTelescopeParameter (PFloat 4) example_subarray).
  - exact python_star.
  - reflexivity.
  - reflexivity.
Defined.

Lemma list_order_precedence_witness :
  (exists bound,
      TelescopeParameterLookup.attach_subarray
        (TelescopeParameterLookup.__init__
           [Pattern (PStr "id") (PInt 5) (PFloat 9);
            Pattern (PStr "type") (PStr "*") (PFloat 1)]) example_subarray
      = (bound, None)
      /\ TelescopeParameterLookup.__getitem__ bound (PInt 5) = Ok (PFloat 1))
  /\ (let params := [Pattern (PStr "type") (PStr "*") (PFloat 1);
                     Pattern (PStr "type") (PStr "LST_*") (PFloat 2);
                     Pattern (PStr "id") (PInt 99) (PFloat 3)] in
      let bound :=
        (TelescopeParameterLookup.attach_subarray
           (TelescopeParameterLookup.__init__ params) example_subarray).1 in
      TelescopeParameterLookup.__getitem__ bound (PStr "LST_LST_LSTCam")
      = Ok (PFloat 2)
      /\ TelescopeParameterLookup.__getitem__ bound (PInt 1) = Ok (PFloat 2)
      /\ TelescopeParameterLookup.__getitem__ bound (PInt 5) = Ok (PFloat 1)).
Proof.
  destruct list_order_precedence as (Hlast & _ & Hexample).
  split.
  - apply (Hexample example_subarray "MST_MST_FlashCam").
    + exact python_star.
    + simpl. auto.
    + simpl. auto.
  - intros params bound.
    destruct (Hlast params example_subarray bound eq_refl) as [Hids Htypes].
    split; [rewrite Htypes; reflexivity|].
    split; rewrite Hids; reflexivity.
Defined.

Lemma validate_deep_list_raises_witness :
  TelescopeParameter.validate FloatTelescopeParameter
    (Plain (PList (List.repeat (PTuple [PStr "id"; PInt 1; PFloat 1]) 125
                   ++ [])))
  = Raise RecursionError
  /\ exists l,
       TelescopeParameter.validate FloatTelescopeParameter
         (Plain (PList (List.repeat (PTuple [PStr "id"; PInt 1; PFloat 1]) 124)))
       = Ok l.
Proof.
  split.
  - apply validate_deep_list_raises; [|reflexivity].
    apply List.Forall_forall. intros item Hin.
    apply repeat_spec in Hin. subst item. eexists. reflexivity.
  - eexists. vm_compute. reflexivity.
Defined.

End MoreExamples.

Section MorePathExamples.
#[local] Existing Instance python.
#[local] Existing Instance example_system.

Lemma validate_returns_valid_path_witness :
  (Path.allow_none existing_file = true
   /\ (Path.VStr "dataset://gamma.simtel.gz" = Path.VNone
       \/ Path.VStr "dataset://gamma.simtel.gz" = Path.VUndefined)
   /\ Path.VPath "/data/gamma.simtel.gz" = Path.VStr "dataset://gamma.simtel.gz")
  \/ (exists resolved,
         Path.VPath "/data/gamma.simtel.gz" = Path.VPath (Path.absolute resolved)
         /\ violated existing_file (Path.absolute resolved) = false).
Proof.
  apply (validate_returns_valid_path existing_file
           (Path.VStr "dataset://gamma.simtel.gz")).
  reflexivity.
Defined.

Lemma constructed_list_has_no_lookup_witness :
  let l :=
    {| TelescopePatternList.data :=
         [Pattern (PStr "type") (PStr "*") (PFloat 5);
          Pattern (PStr "id") (PInt 3) (PFloat 2)];
       TelescopePatternList._lookup := None;
       TelescopePatternList._subarray := None |} in
  (length (TelescopePatternList.data l) = 2%nat
   /\ Forall (fun p => py_eq_str (command p) "type"
                       || py_eq_str (command p) "id" = true)
        (TelescopePatternList.data l)
   /\ TelescopePatternList.tel l = Raise RuntimeError
   /\ TelescopePatternList.attach_subarray l example_subarray
      = ({| TelescopePatternList.data := TelescopePatternList.data l;
            TelescopePatternList._lookup := None;
            TelescopePatternList._subarray := Some example_subarray |},
         Some AttributeError))
  /\ (TypeError = TypeError
      /\ exists c a v,
           In (PTuple [c; a; v]) [PTuple [PList []; PInt 1; PInt 2]]
           /\ hashable c = false).
Proof.
  intros l. split.
  - destruct (constructed_list_has_no_lookup
                [PFloat 5; PTuple [PStr "id"; PInt 3; PFloat 2]])
      as [Hok _].
    apply (Hok l example_subarray). reflexivity.
  - destruct (constructed_list_has_no_lookup
                [PTuple [PList []; PInt 1; PInt 2]])
      as [_ Hraise].
    apply (Hraise TypeError). reflexivity.
Defined.

Lemma validate_follows_registry_witness :
  let self := {| ComponentName.allow_none := true |} in
  ComponentName.validate self ["LocalPeakWindowSum"; "NeighborPeakWindowSum"]
    (Some "NeighborPeakWindowSum")
  = Ok (Some "NeighborPeakWindowSum")
  /\ ComponentName.validate self ["LocalPeakWindowSum"] None = Ok None
  /\ ComponentName.validate self ["LocalPeakWindowSum"] (Some "FixedWindowSum")
     = Raise (TraitError InvalidValue)
  /\ ComponentName.validate self
       (["FixedWindowSum"] ++ ["LocalPeakWindowSum"; "NeighborPeakWindowSum"])
       (Some "NeighborPeakWindowSum")
     = Ok (Some "NeighborPeakWindowSum")
  /\ ComponentName.validate self ["FixedWindowSum"; "LocalPeakWindowSum"]
       (Some "FixedWindowSum")
     = Ok (Some "FixedWindowSum").
Proof.
  intros self.
  destruct (validate_follows_registry self
              ["LocalPeakWindowSum"; "NeighborPeakWindowSum"]
              (Some "NeighborPeakWindowSum")) as (Hexact & _ & Hgrow & _).
  destruct (validate_follows_registry self ["LocalPeakWindowSum"] None)
    as (Hnone & _).
  destruct (validate_follows_registry self ["LocalPeakWindowSum"]
              (Some "FixedWindowSum")) as (_ & Hreject & _ & Hlate).
  split; [apply Hexact; split; [reflexivity|right; left]|].
  split; [apply Hnone; split; reflexivity|].
  split.
  { apply Hreject. intros Hin. apply list_elem_of_singleton in Hin.
    discriminate Hin. }
  split; [apply (Hgrow ["FixedWindowSum"]); reflexivity|apply Hlate].
Defined.

End MorePathExamples.

Section ColonExamples.
#[local] Existing Instance colon_system.

Lemma validate_delegates_witness :
  Path.validate existing_file (Path.VStr "https://host/gamma.simtel.gz")
  = Raise (OtherError "offline").
Proof.
  destruct (validate_delegates existing_file "https://host/gamma.simtel.gz")
    as (_ & _ & Hdownload & _); [discriminate|].
  apply (Hdownload {| Path.scheme := "https"; Path.netloc := "";
                      Path.path := "//host/gamma.simtel.gz" |});
    [reflexivity|right; reflexivity|reflexivity].
Defined.

Lemma dataset_without_marker_witness :
  Path.validate existing_file (Path.VStr "dataset:gamma.simtel.gz")
  = Raise (OtherError "FileNotFoundError").
Proof.
  rewrite (dataset_without_marker existing_file "dataset:gamma.simtel.gz"
             {| Path.scheme := "dataset"; Path.netloc := "";
                Path.path := "gamma.simtel.gz" |});
    [reflexivity|discriminate|reflexivity|reflexivity|reflexivity].
Defined.

End ColonExamples.

(** ** Arguments and values of the rules *)

Section RuleArguments.
Context `{Builtins}.
Import TelescopeParameter.

Lemma validate_pattern_id_argument (self : t) (a v : pyobj) (z : Z) :
  py_int a = Ok z ->
  validate_pattern self (PTuple [PStr "id"; a; v])
  = validate_pattern self (PTuple [PStr "id"; PInt z; v]).
Proof.
  intros Hint. unfold validate_pattern. simpl.
  destruct (_validate_entry self v) as [v1|]; simpl; [|reflexivity].
  unfold id_argument. rewrite Hint. reflexivity.
Qed.

(** The argument of an ["id"] rule is stored as [int(arg)]: an argument
    on which [int] returns [z] (a string of digits, a [bool], a [float])
    can be replaced by [z] itself, anywhere in the assigned list, without
    changing what [validate] returns or raises. *)
Theorem id_argument_is_coerced (self : t) (before after : list pyobj)
    (a v : pyobj) (z : Z) :
  py_int a = Ok z ->
  validate self (Plain (PList (before ++ PTuple [PStr "id"; a; v] :: after)))
  = validate self
      (Plain (PList (before ++ PTuple [PStr "id"; PInt z; v] :: after))).
Proof.
  intros Hint. unfold validate. simpl. rewrite !validate_loop_app.
  destruct (validate_loop self None TelescopePatternList.new before)
    as [middle|]; simpl; [|reflexivity].
  unfold validate_step. rewrite (validate_pattern_id_argument _ _ _ _ Hint).
  reflexivity.
Qed.

(** With [allow_none], the single value [None] is kept as the value of
    the rule [("type", "*", None)] without the inner trait being asked, and
    is what [lookup[None]] returns. *)
Theorem none_is_kept_with_allow_none (self : t) :
  allow_none self = true ->
  exists l lookup,
    validate self (Plain PNone) = Ok l
    /\ TelescopePatternList.data l = [Pattern (PStr "type") (PStr "*") PNone]
    /\ TelescopePatternList.tel l = Ok lookup
    /\ TelescopeParameterLookup.__getitem__ lookup PNone = Ok PNone.
Proof.
  intros Hallow.
  assert (Hnone : _validate_entry self PNone = Ok PNone)
    by (unfold _validate_entry; rewrite Hallow; reflexivity).
  eexists _, _. split; [apply validate_scalar; [reflexivity|exact Hnone]|].
  repeat split.
Qed.

End RuleArguments.

Section RuleArgumentExamples.
#[local] Existing Instance python.

Lemma id_argument_is_coerced_witness :
  TelescopeParameter.validate FloatTelescopeParameter
    (Plain (PList ([PTuple [PStr "type"; PStr "*"; PFloat 1]]
                   ++ PTuple [PStr "id"; PStr "34"; PFloat 4] :: [])))
  = TelescopeParameter.validate FloatTelescopeParameter
      (Plain (PList ([PTuple [PStr "type"; PStr "*"; PFloat 1]]
                     ++ PTuple [PStr "id"; PInt 34; PFloat 4] :: []))).
Proof. apply id_argument_is_coerced. reflexivity. Defined.

Lemma none_is_kept_with_allow_none_witness :
  let self :=
    {| TelescopeParameter._trait := Float_validate;
       TelescopeParameter.allow_none := true;
       TelescopeParameter.default_value := None |} in
  exists l lookup,
    TelescopeParameter.validate self (Plain PNone) = Ok l
    /\ TelescopePatternList.data l = [Pattern (PStr "type") (PStr "*") PNone]
    /\ TelescopePatternList.tel l = Ok lookup
    /\ TelescopeParameterLookup.__getitem__ lookup PNone = Ok PNone.
Proof.
  intros self. apply (none_is_kept_with_allow_none self). reflexivity.
Defined.

End RuleArgumentExamples.
